(** * StockAI: the multi-source scraper of [server-improved.js]

    A shallow embedding of the class [ImprovedStockScraper] and of the
    [POST /api/analyze] handler, followed by the properties of the merge,
    the classification, the rendering and the request pipeline.

    Conventions of the embedding.
    - A JavaScript value is a [JSValue]; a missing property reads as
      [undefined], exactly as in the source.
    - A JavaScript number is modelled by its exact value: [NaN], the two
      infinities, or a rational.  Comparisons against the thresholds of the
      source are therefore exact; IEEE rounding and the negative zero are
      not modelled.
    - The formatting of numbers ([toString], [toFixed], [toLocaleString])
      belongs to the runtime; the renderers take it as a parameter.
    - The three fetch methods perform network input and catch every error.
      What each of them parsed (or the fact that it failed) is an input of
      the model, as is the order in which the three requests complete.
    - Methods that assign to [this.data] return the scraper they leave
      behind next to their result; console output is left out. *)

From Stdlib Require Import String Ascii List Bool ZArith QArith Qabs Qround DecimalString.
From Stdlib Require Import Lia Lqa.
Import ListNotations.
Open Scope string_scope.

(** ** JavaScript values *)

Inductive number : Type :=
| NaN
| Infinity (negative : bool)
| Finite (q : Q).

Inductive JSValue : Type :=
| undefined
| null
| JSBool (b : bool)
| JSNumber (n : number)
| JSString (s : string)
| JSObject (repr : string).   (* an object or array, with its string conversion *)

Definition num (z : Z) : number := Finite (inject_Z z).

Definition Qlt_bool (x y : Q) : bool := negb (Qle_bool y x).

(** [a < b] on numbers; any comparison with [NaN] is false. *)
Definition num_lt (a b : number) : bool :=
  match a, b with
  | NaN, _ | _, NaN => false
  | Infinity na, Infinity nb => na && negb nb
  | Infinity na, Finite _ => na
  | Finite _, Infinity nb => negb nb
  | Finite x, Finite y => Qlt_bool x y
  end.

(** [a <= b] on numbers. *)
Definition num_le (a b : number) : bool :=
  match a, b with
  | NaN, _ | _, NaN => false
  | Infinity na, Infinity nb => na || negb nb
  | Infinity na, Finite _ => na
  | Finite _, Infinity nb => negb nb
  | Finite x, Finite y => Qle_bool x y
  end.

Definition num_gt (a b : number) : bool := num_lt b a.
Definition num_ge (a b : number) : bool := num_le b a.

(** ToBoolean on numbers: [0] and [NaN] are falsy. *)
Definition number_truthy (n : number) : bool :=
  match n with
  | NaN => false
  | Infinity _ => true
  | Finite q => negb (Qeq_bool q 0)
  end.

Definition string_empty (s : string) : bool :=
  match s with EmptyString => true | String _ _ => false end.

(** ToBoolean. *)
Definition truthy (v : JSValue) : bool :=
  match v with
  | undefined | null => false
  | JSBool b => b
  | JSNumber n => number_truthy n
  | JSString s => negb (string_empty s)
  | JSObject _ => true
  end.

(** [a || b]. *)
Definition js_or (a b : JSValue) : JSValue := if truthy a then a else b.

Declare Scope js_scope.
Delimit Scope js_scope with js.
Infix "'||'" := js_or (at level 50, left associativity) : js_scope.

(** [typeof v === 'number']. *)
Definition typeof_number (v : JSValue) : bool :=
  match v with JSNumber _ => true | _ => false end.

(** The guard [v && typeof v === 'number'] of the renderers: the number
    behind [v] when the guard passes. *)
Definition number_guard (v : JSValue) : option number :=
  match v with
  | JSNumber n => if number_truthy n then Some n else None
  | _ => None
  end.

(** [String.prototype.toUpperCase], on the ASCII letters. *)
Definition upper_ascii (c : ascii) : ascii :=
  let n := nat_of_ascii c in
  if (97 <=? n)%nat && (n <=? 122)%nat then ascii_of_nat (n - 32) else c.

Fixpoint toUpperCase (s : string) : string :=
  match s with
  | EmptyString => EmptyString
  | String c r => String (upper_ascii c) (toUpperCase r)
  end.

(** ** What the sources hold *)

(** The record [fetchYahooFinanceData] builds from the chart payload. *)
Module Yahoo.
Record t : Type := mk {
  current_price : JSValue;
  previous_close : JSValue;
  change : JSValue;
  change_percent : JSValue;
  volume : JSValue;
  currency : JSValue;
  exchange : JSValue
}.
End Yahoo.

(** The record [fetchNSEData] builds from the quote payload. *)
Module NSE.
Record t : Type := mk {
  current_price : JSValue;
  change : JSValue;
  change_percent : JSValue;
  open : JSValue;
  high : JSValue;
  low : JSValue;
  volume : JSValue;
  market_cap : JSValue;
  pe_ratio : JSValue;
  company_name : JSValue
}.
End NSE.

(** The object [scrapeScreener] fills from the page; a probe that did not
    match leaves its property [undefined]. *)
Module Screener.
Record company_info_t : Type := mk_info {
  name : JSValue;
  price : JSValue
}.
Record ratios_t : Type := mk_ratios {
  market_cap : JSValue;
  pe_ratio : JSValue;
  book_value : JSValue;
  roe : JSValue;
  roce : JSValue
}.
Record t : Type := mk {
  company_info : company_info_t;
  ratios : ratios_t
}.
End Screener.

(** The keys [this.data.sources] can hold. *)
Inductive SourceKey : Type :=
| yahoo_finance_key
| nse_key
| screener_key
| moneycontrol_key.

Definition SourceKey_eqb (a b : SourceKey) : bool :=
  match a, b with
  | yahoo_finance_key, yahoo_finance_key
  | nse_key, nse_key
  | screener_key, screener_key
  | moneycontrol_key, moneycontrol_key => true
  | _, _ => false
  end.

(** [this.data.sources]: one slot per key, and the keys in insertion
    order, which is the order [Object.keys] reports. *)
Record Sources : Type := mkSources {
  yahoo_finance : option Yahoo.t;
  nse : option NSE.t;
  screener : option Screener.t;
  moneycontrol : bool;            (* the empty object, when set *)
  keys : list SourceKey
}.

Definition no_sources : Sources := mkSources None None None false [].

(** Assigning a property that exists keeps its position among the keys. *)
Definition add_key (k : SourceKey) (ks : list SourceKey) : list SourceKey :=
  if existsb (SourceKey_eqb k) ks then ks else ks ++ [k].

Definition set_yahoo_finance (d : Yahoo.t) (s : Sources) : Sources :=
  mkSources (Some d) (nse s) (screener s) (moneycontrol s)
            (add_key yahoo_finance_key (keys s)).

Definition set_nse (d : NSE.t) (s : Sources) : Sources :=
  mkSources (yahoo_finance s) (Some d) (screener s) (moneycontrol s)
            (add_key nse_key (keys s)).

Definition set_screener (d : Screener.t) (s : Sources) : Sources :=
  mkSources (yahoo_finance s) (nse s) (Some d) (moneycontrol s)
            (add_key screener_key (keys s)).

(** The assignment of [scrapeMoneyControl], a method [scrapeAllSources]
    does not call. *)
Definition set_moneycontrol (s : Sources) : Sources :=
  mkSources (yahoo_finance s) (nse s) (screener s) true
            (add_key moneycontrol_key (keys s)).

(** Optional chaining: [o?.p] is [undefined] when [o] is missing. *)
Definition opt_get {A : Type} (o : option A) (p : A -> JSValue) : JSValue :=
  match o with Some x => p x | None => undefined end.

Notation "o ?. p" := (opt_get o p) (at level 20, left associativity) : js_scope.

(** ** The scraper object *)

(** [combined_data]: the seven properties [getCombinedData] assigns. *)
Record Combined : Type := mkCombined {
  current_price : JSValue;
  change_percent : JSValue;
  company_name : JSValue;
  market_cap : JSValue;
  pe_ratio : JSValue;
  roe : JSValue;
  book_value : JSValue
}.

(** The initial [combined_data] is the empty object. *)
Definition empty_combined : Combined :=
  mkCombined undefined undefined undefined undefined undefined undefined undefined.

Record Data : Type := mkData {
  stock_symbol : string;
  scraped_at : string;
  sources : Sources;
  combined_data : Combined;
  summary : JSValue
}.

Record Scraper : Type := mkScraper {
  stockSymbol : string;
  data : Data
}.

(** [new ImprovedStockScraper(stockSymbol)], at the local time [now]. *)
Definition new_scraper (now : string) (symbol : string) : Scraper :=
  mkScraper (toUpperCase symbol)
            (mkData symbol now no_sources empty_combined (JSObject "[object Object]")).

Definition with_sources (s : Sources) (sc : Scraper) : Scraper :=
  mkScraper (stockSymbol sc)
    (mkData (stock_symbol (data sc)) (scraped_at (data sc)) s
            (combined_data (data sc)) (summary (data sc))).

Definition with_combined (c : Combined) (sc : Scraper) : Scraper :=
  mkScraper (stockSymbol sc)
    (mkData (stock_symbol (data sc)) (scraped_at (data sc)) (sources (data sc))
            c (summary (data sc))).

Definition with_summary (v : JSValue) (sc : Scraper) : Scraper :=
  mkScraper (stockSymbol sc)
    (mkData (stock_symbol (data sc)) (scraped_at (data sc)) (sources (data sc))
            (combined_data (data sc)) v).

(** ** getCombinedData *)

(** The record [getCombinedData] builds from [this.data.sources]. *)
Definition combine (sc : Scraper) : Combined :=
  let sources := sources (data sc) in
  {| current_price :=
       (yahoo_finance sources ?. Yahoo.current_price) '||'
       (nse sources ?. NSE.current_price) '||'
       (screener sources ?. (fun s => Screener.price (Screener.company_info s)));
     change_percent :=
       (yahoo_finance sources ?. Yahoo.change_percent) '||'
       (nse sources ?. NSE.change_percent);
     company_name :=
       (nse sources ?. NSE.company_name) '||'
       (screener sources ?. (fun s => Screener.name (Screener.company_info s))) '||'
       JSString (stockSymbol sc);
     market_cap :=
       screener sources ?. (fun s => Screener.market_cap (Screener.ratios s));
     pe_ratio :=
       (screener sources ?. (fun s => Screener.pe_ratio (Screener.ratios s))) '||'
       (nse sources ?. NSE.pe_ratio);
     roe :=
       screener sources ?. (fun s => Screener.roe (Screener.ratios s));
     book_value :=
       screener sources ?. (fun s => Screener.book_value (Screener.ratios s)) |}%js.

(** [getCombinedData()]: stores the record and returns it. *)
Definition getCombinedData (sc : Scraper) : Combined * Scraper :=
  let combined := combine sc in
  (combined, with_combined combined sc).

(** ** The vocabulary of the merge, for the statements *)

(** The properties of the merged record. *)
Inductive Field : Type :=
| f_current_price
| f_change_percent
| f_company_name
| f_market_cap
| f_pe_ratio
| f_roe
| f_book_value.

(** The sources [getCombinedData] consults for a property, in the order
    of its [||] chain. *)
Definition priority (f : Field) : list SourceKey :=
  match f with
  | f_current_price => [yahoo_finance_key; nse_key; screener_key]
  | f_change_percent => [yahoo_finance_key; nse_key]
  | f_company_name => [nse_key; screener_key]
  | f_market_cap => [screener_key]
  | f_pe_ratio => [screener_key; nse_key]
  | f_roe => [screener_key]
  | f_book_value => [screener_key]
  end.

(** The operand of the chain that reads property [f] from source [k]. *)
Definition provided (s : Sources) (k : SourceKey) (f : Field) : JSValue :=
  match f, k with
  | f_current_price, yahoo_finance_key => opt_get (yahoo_finance s) Yahoo.current_price
  | f_current_price, nse_key => opt_get (nse s) NSE.current_price
  | f_current_price, screener_key =>
      opt_get (screener s) (fun d => Screener.price (Screener.company_info d))
  | f_change_percent, yahoo_finance_key => opt_get (yahoo_finance s) Yahoo.change_percent
  | f_change_percent, nse_key => opt_get (nse s) NSE.change_percent
  | f_company_name, nse_key => opt_get (nse s) NSE.company_name
  | f_company_name, screener_key =>
      opt_get (screener s) (fun d => Screener.name (Screener.company_info d))
  | f_market_cap, screener_key =>
      opt_get (screener s) (fun d => Screener.market_cap (Screener.ratios d))
  | f_pe_ratio, screener_key =>
      opt_get (screener s) (fun d => Screener.pe_ratio (Screener.ratios d))
  | f_pe_ratio, nse_key => opt_get (nse s) NSE.pe_ratio
  | f_roe, screener_key =>
      opt_get (screener s) (fun d => Screener.roe (Screener.ratios d))
  | f_book_value, screener_key =>
      opt_get (screener s) (fun d => Screener.book_value (Screener.ratios d))
  | _, _ => undefined
  end.

Definition field (c : Combined) (f : Field) : JSValue :=
  match f with
  | f_current_price => current_price c
  | f_change_percent => change_percent c
  | f_company_name => company_name c
  | f_market_cap => market_cap c
  | f_pe_ratio => pe_ratio c
  | f_roe => roe c
  | f_book_value => book_value c
  end.

(** The record [c] with property [f] set to [v]. *)
Definition set_field (c : Combined) (f : Field) (v : JSValue) : Combined :=
  match f with
  | f_current_price =>
      mkCombined v (change_percent c) (company_name c) (market_cap c)
                 (pe_ratio c) (roe c) (book_value c)
  | f_change_percent =>
      mkCombined (current_price c) v (company_name c) (market_cap c)
                 (pe_ratio c) (roe c) (book_value c)
  | f_company_name =>
      mkCombined (current_price c) (change_percent c) v (market_cap c)
                 (pe_ratio c) (roe c) (book_value c)
  | f_market_cap =>
      mkCombined (current_price c) (change_percent c) (company_name c) v
                 (pe_ratio c) (roe c) (book_value c)
  | f_pe_ratio =>
      mkCombined (current_price c) (change_percent c) (company_name c)
                 (market_cap c) v (roe c) (book_value c)
  | f_roe =>
      mkCombined (current_price c) (change_percent c) (company_name c)
                 (market_cap c) (pe_ratio c) v (book_value c)
  | f_book_value =>
      mkCombined (current_price c) (change_percent c) (company_name c)
                 (market_cap c) (pe_ratio c) (roe c) v
  end.

(** [v1 || v2 || ... || vn]. *)
Fixpoint or_chain (l : list JSValue) : JSValue :=
  match l with
  | [] => undefined
  | [v] => v
  | v :: r => js_or v (or_chain r)
  end.

(** The operands of the chain of property [f]; the chain of the company
    name ends with the stock symbol. *)
Definition operands (sc : Scraper) (f : Field) : list JSValue :=
  (map (fun k => provided (sources (data sc)) k f) (priority f)
   ++ match f with
      | f_company_name => [JSString (stockSymbol sc)]
      | _ => []
      end)%list.

Fixpoint index_of (k : SourceKey) (l : list SourceKey) : option nat :=
  match l with
  | [] => None
  | x :: r => if SourceKey_eqb k x then Some O else option_map S (index_of k r)
  end.

(** The position of source [k] in the chain of [f], if it is consulted. *)
Definition rank (f : Field) (k : SourceKey) : option nat :=
  index_of k (priority f).

(** Source [A] comes before source [B] in the chain of [f]. *)
Definition ranks_above (f : Field) (A B : SourceKey) : Prop :=
  match rank f A, rank f B with
  | Some i, Some j => (i < j)%nat
  | _, _ => False
  end.

(** A value a source did not provide: the property is missing or null. *)
Definition absent (v : JSValue) : bool :=
  match v with
  | undefined | null => true
  | _ => false
  end.

(** [v] is the number zero. *)
Definition is_zero (v : JSValue) : bool :=
  match v with
  | JSNumber (Finite q) => Qeq_bool q 0
  | _ => false
  end.

(** ** parseFloat *)

Definition is_digit (c : ascii) : bool :=
  let n := nat_of_ascii c in (48 <=? n)%nat && (n <=? 57)%nat.

Definition digit_value (c : ascii) : Z := Z.of_nat (nat_of_ascii c - 48).

(** The white space [parseFloat] skips (the ASCII part of it). *)
Definition is_space (c : ascii) : bool :=
  let n := nat_of_ascii c in ((9 <=? n) && (n <=? 13) || (n =? 32))%nat.

Fixpoint trimStart (s : string) : string :=
  match s with
  | EmptyString => EmptyString
  | String c r => if is_space c then trimStart r else s
  end.

(** The longest run of decimal digits at the head of [s], and what follows. *)
Fixpoint span_digits (s : string) : list Z * string :=
  match s with
  | EmptyString => ([], EmptyString)
  | String c r =>
      if is_digit c
      then let (ds, rest) := span_digits r in (digit_value c :: ds, rest)
      else ([], s)
  end.

Definition decimal_value (ds : list Z) : Z :=
  fold_left (fun acc d => 10 * acc + d)%Z ds 0%Z.

Definition read_sign (s : string) : bool * string :=
  match s with
  | String "+" r => (false, r)
  | String "-" r => (true, r)
  | _ => (false, s)
  end.

(** An exponent part counts only when a digit follows its marker. *)
Definition read_exponent (s : string) : Z :=
  match s with
  | String c r =>
      if (Ascii.eqb c "e" || Ascii.eqb c "E")%bool
      then let (neg, r1) := read_sign r in
           match fst (span_digits r1) with
           | [] => 0%Z
           | ds => if neg then (- decimal_value ds)%Z else decimal_value ds
           end
      else 0%Z
  | EmptyString => 0%Z
  end.

(** [parseFloat] on a string: the longest prefix that is a decimal
    literal, [NaN] when there is none. *)
Definition parseFloat_string (s : string) : number :=
  let (neg, body) := read_sign (trimStart s) in
  if String.prefix "Infinity" body then Infinity neg
  else
    let (ip, r1) := span_digits body in
    let (fp, r2) := match r1 with
                    | String "." r => span_digits r
                    | _ => ([], r1)
                    end in
    match ip, fp with
    | [], [] => NaN
    | _, _ =>
        let m := inject_Z (decimal_value (ip ++ fp)) in
        let e := (read_exponent r2 - Z.of_nat (length fp))%Z in
        let q := (m * Qpower (inject_Z 10) e)%Q in
        Finite (if neg then Qopp q else q)
    end.

(** ** The environment of one request *)

(** The order in which the three concurrent fetches complete. *)
Inductive Completion : Type :=
| Yahoo_NSE_Screener
| Yahoo_Screener_NSE
| NSE_Yahoo_Screener
| NSE_Screener_Yahoo
| Screener_Yahoo_NSE
| Screener_NSE_Yahoo.

Definition completion_order (c : Completion) : list SourceKey :=
  match c with
  | Yahoo_NSE_Screener => [yahoo_finance_key; nse_key; screener_key]
  | Yahoo_Screener_NSE => [yahoo_finance_key; screener_key; nse_key]
  | NSE_Yahoo_Screener => [nse_key; yahoo_finance_key; screener_key]
  | NSE_Screener_Yahoo => [nse_key; screener_key; yahoo_finance_key]
  | Screener_Yahoo_NSE => [screener_key; yahoo_finance_key; nse_key]
  | Screener_NSE_Yahoo => [screener_key; nse_key; yahoo_finance_key]
  end.

(** How the chat-completions call ends: with the [content] of the first
    choice, or with an error and its [message]. *)
Inductive Enrichment : Type :=
| Completed (content : JSValue)
| Failed (message : string).

(** Everything one request reads from outside the process: the clock, what
    each fetch method parsed ([None] when its [try] block threw), the
    completion order, the environment variables and the enrichment call. *)
Record World : Type := mkWorld {
  now : string;
  yahoo_response : option Yahoo.t;
  nse_response : option NSE.t;
  screener_response : option Screener.t;
  completion : Completion;
  OPENAI_API_KEY : option string;
  openai_response : Enrichment;
  NODE_ENV : option string;
  stack_trace : string
}.

(** A network request, as issued. *)
Inductive NetCall : Type :=
| GET (url : string)
| POST (url : string).

(** A thrown [Error]. *)
Record Error : Type := mkError { message : string }.

Inductive Outcome (A : Type) : Type :=
| Returned (a : A)
| Thrown (e : Error).
Arguments Returned {A} a.
Arguments Thrown {A} e.

(** An entry of the array [Promise.allSettled] resolves to. *)
Inductive PromiseStatus : Type := fulfilled | rejected.

Record Settled : Type := mkSettled {
  settled_status : PromiseStatus;
  value : JSValue
}.

(** [v !== null]. *)
Definition not_null (v : JSValue) : bool :=
  match v with null => false | _ => true end.

(** The object a fetch method returns on success. *)
Definition an_object : JSValue := JSObject "[object Object]".

(** The object [generateFinalSummary] returns. *)
Module Final.
Record t : Type := mk {
  summary : JSValue;
  prompt : string;
  model : JSValue;
  error : JSValue
}.
End Final.

(** The body of a successful reply. *)
Module Report.
Record t : Type := mk {
  success : bool;
  symbol : string;
  timestamp : string;
  summary : JSValue;
  final_summary : JSValue;
  ai_prompt : string;
  ai_model : JSValue;
  ai_error : JSValue;
  sources : list string;
  raw_data : Sources;
  combined_data : Combined
}.
End Report.

(** The body of a failed reply. *)
Module Failure.
Record t : Type := mk {
  success : bool;
  error : string;
  details : JSValue
}.
End Failure.

Inductive Body : Type :=
| ReportBody (r : Report.t)
| FailureBody (f : Failure.t).

Record HttpResponse : Type := mkResponse {
  status : nat;
  body : Body
}.

(** [sourceNames[key] || key]. *)
Definition sourceNames (key : SourceKey) : string :=
  match key with
  | yahoo_finance_key => "Yahoo Finance"
  | nse_key => "NSE India"
  | screener_key => "Screener.in"
  | moneycontrol_key => "MoneyControl"
  end.

(** [getSourcesList()]. *)
Definition getSourcesList (sc : Scraper) : list string :=
  map sourceNames (keys (sources (data sc))).

(** ** The fetch methods and scrapeAllSources *)

(** Each fetch method, from the point where its response is in: on
    success it stores what it parsed and returns it, otherwise it returns
    [null] and leaves [sources] alone. *)
Definition fetchYahooFinanceData (w : World) (s : Sources) : JSValue * Sources :=
  match yahoo_response w with
  | Some d => (an_object, set_yahoo_finance d s)
  | None => (null, s)
  end.

Definition fetchNSEData (w : World) (s : Sources) : JSValue * Sources :=
  match nse_response w with
  | Some d => (an_object, set_nse d s)
  | None => (null, s)
  end.

Definition scrapeScreener (w : World) (s : Sources) : JSValue * Sources :=
  match screener_response w with
  | Some d => (an_object, set_screener d s)
  | None => (null, s)
  end.

(** The requests the three methods issue, in call order. *)
Definition fetch_calls (stockSymbol : string) : list NetCall :=
  [ GET ("https://query1.finance.yahoo.com/v8/finance/chart/" ++ stockSymbol ++ ".NS");
    GET ("https://www.nseindia.com/api/quote-equity?symbol=" ++ stockSymbol);
    GET ("https://www.screener.in/company/" ++ stockSymbol ++ "/consolidated/") ].

(** The method of key [k] resumes and writes its slot. *)
Definition resume (w : World) (s : Sources) (k : SourceKey) : Sources :=
  match k with
  | yahoo_finance_key => snd (fetchYahooFinanceData w s)
  | nse_key => snd (fetchNSEData w s)
  | screener_key => snd (scrapeScreener w s)
  | moneycontrol_key => s
  end.

(** The settled array, in call order; the three methods catch their own
    errors, so every entry is fulfilled. *)
Definition settled_results (w : World) (s : Sources) : list Settled :=
  [ mkSettled fulfilled (fst (fetchYahooFinanceData w s));
    mkSettled fulfilled (fst (fetchNSEData w s));
    mkSettled fulfilled (fst (scrapeScreener w s)) ].

Definition is_success (r : Settled) : bool :=
  match settled_status r with
  | fulfilled => not_null (value r)
  | rejected => false
  end.

Definition all_failed_message : string :=
  "Unable to fetch data from any source. Stock symbol might be invalid or services are unavailable.".

(** [scrapeAllSources()]. *)
Definition scrapeAllSources (w : World) (sc : Scraper)
  : Outcome Scraper * list NetCall :=
  let written := fold_left (resume w) (completion_order (completion w))
                           (sources (data sc)) in
  let results := settled_results w (sources (data sc)) in
  let successCount := length (filter is_success results) in
  ((if (successCount =? 0)%nat
    then Thrown (mkError all_failed_message)
    else Returned (with_sources written sc)),
   fetch_calls (stockSymbol sc)).

(** Whether the fetch method of key [k] returned what it parsed. *)
Definition succeeded (w : World) (k : SourceKey) : bool :=
  match k with
  | yahoo_finance_key => match yahoo_response w with Some _ => true | None => false end
  | nse_key => match nse_response w with Some _ => true | None => false end
  | screener_key => match screener_response w with Some _ => true | None => false end
  | moneycontrol_key => false
  end.

(** [sources] once the three fetches of a fresh scraper have settled. *)
Definition scraped_sources (w : World) : Sources :=
  fold_left (resume w) (completion_order (completion w)) no_sources.

(** ** Arithmetic and coercion of numbers *)

Definition num_sub (a b : number) : number :=
  match a, b with
  | NaN, _ | _, NaN => NaN
  | Infinity na, Infinity nb => if Bool.eqb na nb then NaN else Infinity na
  | Infinity na, Finite _ => Infinity na
  | Finite _, Infinity nb => Infinity (negb nb)
  | Finite x, Finite y => Finite (x - y)
  end.

Definition num_mul (a b : number) : number :=
  match a, b with
  | NaN, _ | _, NaN => NaN
  | Infinity na, Infinity nb => Infinity (xorb na nb)
  | Infinity na, Finite y =>
      if Qeq_bool y 0 then NaN else Infinity (xorb na (Qlt_bool y 0))
  | Finite x, Infinity nb =>
      if Qeq_bool x 0 then NaN else Infinity (xorb (Qlt_bool x 0) nb)
  | Finite x, Finite y => Finite (x * y)
  end.

(** Division; a zero divisor is the positive zero. *)
Definition num_div (a b : number) : number :=
  match a, b with
  | NaN, _ | _, NaN => NaN
  | Infinity _, Infinity _ => NaN
  | Infinity na, Finite y => Infinity (xorb na (Qlt_bool y 0))
  | Finite _, Infinity _ => Finite 0
  | Finite x, Finite y =>
      if Qeq_bool y 0
      then if Qeq_bool x 0 then NaN else Infinity (Qlt_bool x 0)
      else Finite (x / y)
  end.

(** ** What the extractors read *)

(** The [meta] object of the first chart result. *)
Module YahooMeta.
Record t : Type := mk {
  regularMarketPrice : JSValue;
  previousClose : JSValue;
  regularMarketVolume : JSValue;
  currency : JSValue;
  exchangeName : JSValue
}.
End YahooMeta.

(** The quote payload of NSE: each section is an object or is missing. *)
Module NSEQuote.
Record highLow_t : Type := mk_highLow {
  max : JSValue;
  min : JSValue
}.
Record priceInfo_t : Type := mk_priceInfo {
  lastPrice : JSValue;
  change : JSValue;
  pChange : JSValue;
  open : JSValue;
  intraDayHighLow : option highLow_t
}.
Record preOpenMarket_t : Type := mk_preOpenMarket {
  totalTradedVolume : JSValue
}.
Record metadata_t : Type := mk_metadata {
  pdSectorInd : JSValue;
  pdSectorPe : JSValue
}.
Record info_t : Type := mk_info {
  companyName : JSValue
}.
Record t : Type := mk {
  priceInfo : option priceInfo_t;
  preOpenMarket : option preOpenMarket_t;
  metadata : option metadata_t;
  info : option info_t
}.
End NSEQuote.

(** [o?.p?.q], for a section [p] that may be missing as well. *)
Definition opt_get2 {A B : Type} (o : option A) (p : A -> option B)
           (q : B -> JSValue) : JSValue :=
  match o with
  | Some x => opt_get (p x) q
  | None => undefined
  end.

(** The record [parsed] of [fetchNSEData]. *)
Definition nse_data (data : NSEQuote.t) : NSE.t :=
  NSE.mk (opt_get (NSEQuote.priceInfo data) NSEQuote.lastPrice)
         (opt_get (NSEQuote.priceInfo data) NSEQuote.change)
         (opt_get (NSEQuote.priceInfo data) NSEQuote.pChange)
         (opt_get (NSEQuote.priceInfo data) NSEQuote.open)
         (opt_get2 (NSEQuote.priceInfo data) NSEQuote.intraDayHighLow NSEQuote.max)
         (opt_get2 (NSEQuote.priceInfo data) NSEQuote.intraDayHighLow NSEQuote.min)
         (opt_get (NSEQuote.preOpenMarket data) NSEQuote.totalTradedVolume)
         (opt_get (NSEQuote.metadata data) NSEQuote.pdSectorInd)
         (opt_get (NSEQuote.metadata data) NSEQuote.pdSectorPe)
         (opt_get (NSEQuote.info data) NSEQuote.companyName).

Section Extract.

(** The conversion of a string to a number, and [toFixed(2)], both of
    the runtime. *)
Variable StringToNumber : string -> number.
Variable toFixed2 : number -> string.

(** ToNumber, as the operators [-], [/] and [*] apply it. *)
Definition ToNumber (v : JSValue) : number :=
  match v with
  | undefined => NaN
  | null => Finite 0
  | JSBool true => Finite 1
  | JSBool false => Finite 0
  | JSNumber n => n
  | JSString s => StringToNumber s
  | JSObject repr => StringToNumber repr
  end.

(** The record [data] of [fetchYahooFinanceData]. *)
Definition yahoo_data (meta : YahooMeta.t) : Yahoo.t :=
  let price := ToNumber (YahooMeta.regularMarketPrice meta) in
  let close := ToNumber (YahooMeta.previousClose meta) in
  Yahoo.mk (YahooMeta.regularMarketPrice meta)
           (YahooMeta.previousClose meta)
           (JSNumber (num_sub price close))
           (JSString (toFixed2 (num_mul (num_div (num_sub price close) close)
                                        (num 100))))
           (YahooMeta.regularMarketVolume meta)
           (YahooMeta.currency meta)
           (YahooMeta.exchangeName meta).

End Extract.

(** ** The probes of scrapeScreener *)

(** [hay.includes(needle)]. *)
Fixpoint includes (needle hay : string) : bool :=
  if String.prefix needle hay then true
  else match hay with
       | EmptyString => false
       | String _ r => includes needle r
       end.

Fixpoint drop (n : nat) (s : string) : string :=
  match n, s with
  | O, _ => s
  | S n', String _ r => drop n' r
  | S _, EmptyString => EmptyString
  end.

Definition strip_prefix (p s : string) : option string :=
  if String.prefix p s then Some (drop (String.length p) s) else None.

(** The longest head of [s] made of characters in [p], and the rest. *)
Fixpoint span (p : ascii -> bool) (s : string) : string * string :=
  match s with
  | EmptyString => (EmptyString, EmptyString)
  | String c r =>
      if p c then let (a, rest) := span p r in (String c a, rest)
      else (EmptyString, s)
  end.

Definition byte_is (c : ascii) (n : nat) : bool := (nat_of_ascii c =? n)%nat.

Definition byte_in (c : ascii) (lo hi : nat) : bool :=
  ((lo <=? nat_of_ascii c) && (nat_of_ascii c <=? hi))%nat.

(** What is left of [s] after the white space at its head, as the
    class [\s] of a pattern takes it: the ASCII white space and the white space
    beyond it, in its UTF-8 form (U+00A0, U+1680, U+2000 to U+200A,
    U+2028, U+2029, U+202F, U+205F, U+3000, U+FEFF). *)
Fixpoint skip_space (s : string) : string :=
  match s with
  | EmptyString => EmptyString
  | String c r =>
      if is_space c then skip_space r
      else
        match r with
        | String c1 r1 =>
            if byte_is c 194 && byte_is c1 160 then skip_space r1
            else
              match r1 with
              | String c2 r2 =>
                  if (byte_is c 225 && byte_is c1 154 && byte_is c2 128)
                     || (byte_is c 226 && byte_is c1 128
                         && (byte_in c2 128 138 || byte_in c2 168 169
                             || byte_is c2 175))
                     || (byte_is c 226 && byte_is c1 129 && byte_is c2 159)
                     || (byte_is c 227 && byte_is c1 128 && byte_is c2 128)
                     || (byte_is c 239 && byte_is c1 187 && byte_is c2 191)
                  then skip_space r2
                  else s
              | EmptyString => s
              end
        | EmptyString => s
        end
  end.

Definition is_digit_or_comma (c : ascii) : bool := is_digit c || Ascii.eqb c ",".
Definition is_digit_or_dot (c : ascii) : bool := is_digit c || Ascii.eqb c ".".

(** The leftmost position of [s] at which [here] matches. *)
Fixpoint search {A : Type} (here : string -> option A) (s : string) : option A :=
  match here s with
  | Some m => Some m
  | None =>
      match s with
      | EmptyString => None
      | String _ r => search here r
      end
  end.

(** The pattern of a rupee amount at the head of [s]: the sign, any white
    space, a run of digits and commas, an optional dot and any digits.
    The capture (all but the sign and the space) and what follows the
    match. *)
Definition rupee_amount_here (s : string) : option (string * string) :=
  match strip_prefix "₹" s with
  | None => None
  | Some r =>
      let (a, r1) := span is_digit_or_comma (skip_space r) in
      if string_empty a then None
      else
        let (dot, r2) := match r1 with
                         | String "." r' => (".", r')
                         | _ => ("", r1)
                         end in
        let (b, r3) := span is_digit r2 in
        Some (a ++ dot ++ b, r3)
  end.

(** The first group of the match of the rupee-amount pattern in [text],
    as the probes of the price and of the book value take it. *)
Definition match_rupee_amount (text : string) : option string :=
  option_map fst (search rupee_amount_here text).

(** The first group of the match of the market-cap pattern in [text]:
    a rupee amount, any white space and [Cr]. *)
Definition match_rupee_crore (text : string) : option string :=
  search (fun s =>
            match rupee_amount_here s with
            | Some (m, rest) =>
                if String.prefix "Cr" (skip_space rest) then Some m else None
            | None => None
            end) text.

(** The first group of the match of the P/E pattern in [text]: the
    label, any white space and a run of digits and dots. *)
Definition match_stock_pe (text : string) : option string :=
  search (fun s =>
            match strip_prefix "Stock P/E" s with
            | Some r =>
                let (m, _) := span is_digit_or_dot (skip_space r) in
                if string_empty m then None else Some m
            | None => None
            end) text.

(** The first group of the match of the percent pattern in [text]: a
    run of digits and dots followed at once by the percent sign. *)
Definition match_percent (text : string) : option string :=
  search (fun s =>
            let (m, rest) := span is_digit_or_dot s in
            if string_empty m then None
            else if String.prefix "%" rest then Some m else None) text.

(** [s.replace(/,/g, '')]. *)
Fixpoint remove_commas (s : string) : string :=
  match s with
  | EmptyString => EmptyString
  | String c r => if Ascii.eqb c "," then remove_commas r else String c (remove_commas r)
  end.

(** The six probes of an item of the top ratios: the number to store,
    when the item carries the label and the pattern matches. *)
Definition probe_market_cap (text : string) : option JSValue :=
  if includes "Market Cap" text
  then option_map (fun m => JSNumber (parseFloat_string (remove_commas m)))
                  (match_rupee_crore text)
  else None.

Definition probe_price (text : string) : option JSValue :=
  if includes "Current Price" text
  then option_map (fun m => JSNumber (parseFloat_string (remove_commas m)))
                  (match_rupee_amount text)
  else None.

Definition probe_pe_ratio (text : string) : option JSValue :=
  if includes "Stock P/E" text
  then option_map (fun m => JSNumber (parseFloat_string m)) (match_stock_pe text)
  else None.

Definition probe_book_value (text : string) : option JSValue :=
  if includes "Book Value" text
  then option_map (fun m => JSNumber (parseFloat_string (remove_commas m)))
                  (match_rupee_amount text)
  else None.

Definition probe_roe (text : string) : option JSValue :=
  if includes "ROE" text
  then option_map (fun m => JSNumber (parseFloat_string m)) (match_percent text)
  else None.

Definition probe_roce (text : string) : option JSValue :=
  if includes "ROCE" text
  then option_map (fun m => JSNumber (parseFloat_string m)) (match_percent text)
  else None.

(** An assignment that happens only when the probe found a value. *)
Definition assign (found : option JSValue) (old : JSValue) : JSValue :=
  match found with
  | Some v => v
  | None => old
  end.

(** The body of the loop over [#top-ratios li], on the trimmed text of
    one item. *)
Definition scan_top_ratio (data : Screener.t) (text : string) : Screener.t :=
  let info := Screener.company_info data in
  let ratios := Screener.ratios data in
  Screener.mk
    (Screener.mk_info (Screener.name info)
                      (assign (probe_price text) (Screener.price info)))
    (Screener.mk_ratios
       (assign (probe_market_cap text) (Screener.market_cap ratios))
       (assign (probe_pe_ratio text) (Screener.pe_ratio ratios))
       (assign (probe_book_value text) (Screener.book_value ratios))
       (assign (probe_roe text) (Screener.roe ratios))
       (assign (probe_roce text) (Screener.roce ratios))).

(** The body of the loop over [li[class*="flex"]]. *)
Definition scan_flex_item (data : Screener.t) (text : string) : Screener.t :=
  let ratios := Screener.ratios data in
  Screener.mk
    (Screener.company_info data)
    (Screener.mk_ratios
       (assign (probe_market_cap text) (Screener.market_cap ratios))
       (Screener.pe_ratio ratios) (Screener.book_value ratios)
       (Screener.roe ratios) (Screener.roce ratios)).

(** What cheerio hands to [scrapeScreener]: the trimmed text of the first
    [h1] (empty when there is none) and the trimmed texts of the items
    of the two selections, in document order. *)
Record Page : Type := mkPage {
  h1 : string;
  top_ratios : list string;
  flex_items : list string
}.

(** The object [data] of [scrapeScreener]. *)
Definition screener_data (page : Page) : Screener.t :=
  let named :=
    Screener.mk
      (Screener.mk_info (if string_empty (h1 page) then undefined
                         else JSString (h1 page))
                        undefined)
      (Screener.mk_ratios undefined undefined undefined undefined undefined) in
  fold_left scan_flex_item (flex_items page)
            (fold_left scan_top_ratio (top_ratios page) named).

(** The six numbers [scrapeScreener] looks for, with the probe of each,
    the items it is probed on and the property it is stored in. *)
Inductive Ratio : Type :=
| r_market_cap
| r_price
| r_pe_ratio
| r_book_value
| r_roe
| r_roce.

Definition probe_of (r : Ratio) : string -> option JSValue :=
  match r with
  | r_market_cap => probe_market_cap
  | r_price => probe_price
  | r_pe_ratio => probe_pe_ratio
  | r_book_value => probe_book_value
  | r_roe => probe_roe
  | r_roce => probe_roce
  end.

Definition items_of (r : Ratio) (page : Page) : list string :=
  match r with
  | r_market_cap => (top_ratios page ++ flex_items page)%list
  | _ => top_ratios page
  end.

Definition stored (r : Ratio) (d : Screener.t) : JSValue :=
  match r with
  | r_market_cap => Screener.market_cap (Screener.ratios d)
  | r_price => Screener.price (Screener.company_info d)
  | r_pe_ratio => Screener.pe_ratio (Screener.ratios d)
  | r_book_value => Screener.book_value (Screener.ratios d)
  | r_roe => Screener.roe (Screener.ratios d)
  | r_roce => Screener.roce (Screener.ratios d)
  end.

(** [scrapeMoneyControl], from the point where its response is in; [ok]
    tells whether the request succeeded. *)
Definition scrapeMoneyControl (ok : bool) (s : Sources) : JSValue * Sources :=
  if ok then (an_object, set_moneycontrol s) else (null, s).

(** ** One concrete runtime, for closed examples

    The renderers below are parametric in the number formatting of the
    JavaScript runtime.  The closed examples instantiate them with this
    one, which prints the exact value: two rounded decimals for
    [toFixed(2)], the decimal expansion for [toString], Indian digit
    grouping with at most three decimals for [toLocaleString('en-IN')]. *)
Module Sample.

Definition digits (z : Z) : string :=
  NilZero.string_of_uint (N.to_uint (Z.to_N z)).

Definition sign_of (q : Q) : string := if Qlt_bool q 0 then "-" else "".

Definition special (n : number) (finite : Q -> string) : string :=
  match n with
  | NaN => "NaN"
  | Infinity true => "-Infinity"
  | Infinity false => "Infinity"
  | Finite q => finite q
  end.

(** [|q| * 10^k], rounded to the nearest integer, ties upwards. *)
Definition scaled (q : Q) (k : Z) : Z :=
  Qfloor (Qabs q * inject_Z (10 ^ k) + (1 # 2)).

Definition pad2 (z : Z) : string :=
  if (z <? 10)%Z then "0" ++ digits z else digits z.

Definition toFixed2 (n : number) : string :=
  special n (fun q =>
    let h := scaled q 2 in
    sign_of q ++ digits (h / 100) ++ "." ++ pad2 (h mod 100)).

(** The digits of [r], a rational in [0, 1), until they stop. *)
Fixpoint fraction (fuel : nat) (r : Q) : string :=
  match fuel with
  | O => ""
  | S fuel' =>
      if Qeq_bool r 0 then ""
      else let d := Qfloor (r * 10) in
           digits d ++ fraction fuel' (Qred (r * 10 - inject_Z d))
  end.

Definition with_fraction (int frac : string) : string :=
  if string_empty frac then int else int ++ "." ++ frac.

Definition Number_toString (n : number) : string :=
  special n (fun q =>
    let a := Qabs q in
    (if Qeq_bool q 0 then "" else sign_of q)
    ++ with_fraction (digits (Qfloor a)) (fraction 17 (Qred (a - inject_Z (Qfloor a))))).

(** Commas after the first three digits, then after every two, on the
    digits in reverse. *)
Fixpoint pairs (l : list ascii) : list ascii :=
  match l with
  | a :: b :: r =>
      match r with
      | [] => [a; b]
      | _ => a :: b :: ","%char :: pairs r
      end
  | _ => l
  end.

Definition group_rev (l : list ascii) : list ascii :=
  match l with
  | a :: b :: c :: (_ :: _) as r => a :: b :: c :: ","%char :: pairs r
  | _ => l
  end.

Definition grouped (z : Z) : string :=
  string_of_list_ascii (rev (group_rev (rev (list_ascii_of_string (digits z))))).

Definition toLocaleString_enIN (n : number) : string :=
  special n (fun q =>
    let h := scaled q 3 in
    (if (h =? 0)%Z then "" else sign_of q)
    ++ with_fraction (grouped (h / 1000))
         (fraction 3 (Qred (inject_Z (h mod 1000) / inject_Z 1000)))).

End Sample.

(** ** Sample requests, for the closed examples *)
Module Examples.

(** A scraper for the symbol [tcs] whose fetches left [s] behind. *)
Definition holding (s : Sources) : Scraper :=
  with_sources s (new_scraper "1/11/2026, 10:15:00 am" "tcs").

Definition qnum (q : Q) : JSValue := JSNumber (Finite q).

(** Yahoo reports a market price of zero against a close of 3500. *)
Definition yahoo_zero : Yahoo.t :=
  Yahoo.mk (qnum 0) (qnum 3500) (qnum (-3500)) (JSString "-100.00")
           (qnum 120000) (JSString "INR") (JSString "NSI").

(** Yahoo with a quote of 3520.50, up 0.58 percent. *)
Definition yahoo_quote : Yahoo.t :=
  Yahoo.mk (qnum (35205 # 10)) (qnum 3500) (qnum (205 # 10)) (JSString "0.59")
           (qnum 120000) (JSString "INR") (JSString "NSI").

(** NSE with a last price of 3512.40 and nothing else of use. *)
Definition nse_quote : NSE.t :=
  NSE.mk (qnum (35124 # 10)) undefined undefined undefined undefined undefined
         undefined undefined undefined undefined.

(** NSE reporting a sector P/E of [pe]. *)
Definition nse_with_pe (pe : JSValue) : NSE.t :=
  NSE.mk (qnum (35124 # 10)) undefined undefined undefined undefined undefined
         undefined (JSString "NIFTY 50") pe (JSString "Tata Consultancy Services Limited").

(** A Screener page with the given P/E and ROE, and a price of 3510. *)
Definition screener_page (pe roe : JSValue) : Screener.t :=
  Screener.mk (Screener.mk_info (JSString "Tata Consultancy Services Ltd") (qnum 3510))
              (Screener.mk_ratios (qnum 1270000) pe (qnum 280) roe undefined).

Definition zero_priced : Sources :=
  set_nse nse_quote (set_yahoo_finance yahoo_zero no_sources).

Definition nse_and_screener : Sources :=
  set_screener (screener_page (qnum 28) (qnum 45)) (set_nse nse_quote no_sources).

Definition yahoo_only : Sources := set_yahoo_finance yahoo_quote no_sources.

(** NSE alone answered, with a sector P/E of zero. *)
Definition nse_zero_pe : Sources :=
  set_nse (nse_with_pe (qnum 0)) no_sources.

(** Screener alone answered: a P/E of 60 and an ROE of 0 percent. *)
Definition dear_without_return : Sources :=
  set_screener (screener_page (qnum 60) (qnum 0)) no_sources.

(** Screener alone answered: a P/E of 28 and an ROE of 0 percent. *)
Definition fair_without_return : Sources :=
  set_screener (screener_page (qnum 28) (qnum 0)) no_sources.

(** A merged record holding only a P/E and an ROE. *)
Definition pe_and_roe (pe roe : Q) : Combined :=
  mkCombined undefined undefined undefined undefined (qnum pe) (qnum roe) undefined.

(** No source answers. *)
Definition all_down : World :=
  mkWorld "1/11/2026, 10:15:00 am" None None None Yahoo_NSE_Screener
          None (Failed "Network Error") None "".

(** NSE fails; Screener answers before Yahoo; no API key is configured. *)
Definition two_of_three : World :=
  mkWorld "1/11/2026, 10:15:00 am" (Some yahoo_quote) None
          (Some (screener_page (qnum 28) (qnum 45))) Screener_Yahoo_NSE
          None (Failed "Network Error") None "".

(** As [two_of_three], with an API key and an enrichment call that times
    out. *)
Definition enrichment_times_out : World :=
  mkWorld "1/11/2026, 10:15:00 am" (Some yahoo_quote) None
          (Some (screener_page (qnum 28) (qnum 45))) Screener_Yahoo_NSE
          (Some "sk-test") (Failed "timeout of 15000ms exceeded") None "".

(** As [enrichment_times_out], with a call that fails with an error
    whose message is empty. *)
Definition enrichment_fails_silently : World :=
  mkWorld "1/11/2026, 10:15:00 am" (Some yahoo_quote) None
          (Some (screener_page (qnum 28) (qnum 45))) Screener_Yahoo_NSE
          (Some "sk-test") (Failed "") None "".

End Examples.

(** ** Sample payloads, for the closed examples of the extractors *)
Module Cases.

(** The conversion of decimal text to a number: the text is read as
    [parseFloat] reads it when all of it is a decimal literal, the empty
    text is zero, any other text is not a number.  White space around
    the literal and radix prefixes are not read. *)
Definition only_digits (s : string) : bool :=
  string_empty (snd (span is_digit s)).

Definition is_decimal (s : string) : bool :=
  let body := snd (read_sign s) in
  let (ip, r1) := span is_digit body in
  match r1 with
  | EmptyString => negb (string_empty ip)
  | String "." r => only_digits r && negb (string_empty ip && string_empty r)
  | _ => false
  end.

Definition StringToNumber (s : string) : number :=
  if string_empty s then Finite 0
  else if is_decimal s then parseFloat_string s else NaN.

Definition yahoo_of (meta : YahooMeta.t) : Yahoo.t :=
  yahoo_data StringToNumber Sample.toFixed2 meta.

(** A chart with a price of 3520.50 against a close of 3500. *)
Definition meta_quote : YahooMeta.t :=
  YahooMeta.mk (Examples.qnum 3520.5) (Examples.qnum 3500)
               (Examples.qnum 120000) (JSString "INR") (JSString "NSI").

(** The same chart without a previous close. *)
Definition meta_without_close : YahooMeta.t :=
  YahooMeta.mk (Examples.qnum 3520.5) undefined
               (Examples.qnum 120000) (JSString "INR") (JSString "NSI").

(** A quote of NSE with a price and a change of -1.2 percent. *)
Definition falling_quote : NSEQuote.t :=
  NSEQuote.mk
    (Some (NSEQuote.mk_priceInfo (Examples.qnum 3512.4) (Examples.qnum (-42.6))
             (Examples.qnum (-1.2)) (Examples.qnum 3550) None))
    None None None.

(** A quote of NSE with no section at all. *)
Definition empty_quote : NSEQuote.t := NSEQuote.mk None None None None.

(** Yahoo and NSE both answered; Yahoo first. *)
Definition yahoo_and_nse (meta : YahooMeta.t) : Sources :=
  set_nse (nse_data falling_quote) (set_yahoo_finance (yahoo_of meta) no_sources).

(** Only NSE answers, with the empty quote. *)
Definition only_empty_nse : World :=
  mkWorld "1/11/2026, 10:15:00 am" None (Some (nse_data empty_quote)) None
          Yahoo_NSE_Screener None (Failed "Network Error") None "".

(** Yahoo and Screener answer, Yahoo first, and the enrichment call
    completes. *)
Definition enriched : World :=
  mkWorld "1/11/2026, 10:16:00 am" (Some Examples.yahoo_quote) None
          (Some (Examples.screener_page (Examples.qnum 28) (Examples.qnum 45)))
          Yahoo_NSE_Screener (Some "sk-test")
          (Completed (JSString "Stock: Tata Consultancy Services Ltd (TCS)"))
          None "".

(** A page of Screener: two items carry a P/E, and the flex items repeat
    the market cap with another figure. *)
Definition tcs_page : Page :=
  mkPage "Tata Consultancy Services Ltd"
         [ "Market Cap ₹ 12,70,000 Cr.";
           "Current Price ₹ 3,510";
           "Stock P/E 31.2";
           "Book Value ₹ 280";
           "Stock P/E 28.5";
           "ROCE 64.3%";
           "ROE 52.4%" ]
         [ "Market Cap ₹ 13,00,000 Cr." ].

End Cases.

(** ** The renderers *)

Definition nl : string := String (ascii_of_nat 10) EmptyString.

Definition opt_line (o : option string) : list string :=
  match o with Some l => [l] | None => [] end.

(** [Object.keys(this.data.sources).length]. *)
Definition sources_count (sc : Scraper) : nat :=
  length (keys (sources (data sc))).

Section Render.
Local Open Scope js_scope.

(** The number formatting of the runtime: [Number::toString],
    [toFixed(2)] and [toLocaleString('en-IN')]. *)
Variable Number_toString : number -> string.
Variable toFixed2 : number -> string.
Variable toLocaleString_enIN : number -> string.

(** The string conversion of a template literal. *)
Definition ToString (v : JSValue) : string :=
  match v with
  | undefined => "undefined"
  | null => "null"
  | JSBool true => "true"
  | JSBool false => "false"
  | JSNumber n => Number_toString n
  | JSString s => s
  | JSObject repr => repr
  end.

(** [parseFloat(v)]: a number is printed and read back, which returns it;
    any other value is converted to a string and parsed. *)
Definition parseFloat (v : JSValue) : number :=
  match v with
  | JSNumber n => n
  | _ => parseFloat_string (ToString v)
  end.

(** *** generateSummary, line by line *)

Definition title_line (stockSymbol : string) (data : Combined) : string :=
  "📊 " ++ ToString (company_name data '||' JSString stockSymbol).

Definition price_line (data : Combined) : string :=
  match number_guard (current_price data) with
  | Some p => "💰 Current Price: ₹" ++ toFixed2 p
  | None => "💰 Current Price: N/A"
  end.

Definition direction (change_percent : JSValue) : string :=
  if num_ge (parseFloat change_percent) (num 0) then "UP" else "DOWN".

Definition change_line (data : Combined) : option string :=
  if truthy (change_percent data)
  then Some ("📈 Today's Change: " ++ ToString (change_percent data) ++ "% "
             ++ direction (change_percent data))
  else None.

Definition market_cap_line (data : Combined) : option string :=
  match number_guard (market_cap data) with
  | Some m => Some ("🏢 Market Cap: ₹" ++ toLocaleString_enIN m ++ " Cr")
  | None => None
  end.

(** The [valuation] variable of the P/E block. *)
Definition valuation (pe : number) : string :=
  if num_lt pe (num 15) then "Cheap"
  else if num_gt pe (num 30) && num_le pe (num 50) then "Expensive"
  else if num_gt pe (num 50) then "Very Expensive"
  else "Fair".

Definition pe_line (data : Combined) : option string :=
  match number_guard (pe_ratio data) with
  | Some pe => Some ("📊 P/E Ratio: " ++ toFixed2 pe ++ " (" ++ valuation pe ++ ")")
  | None => None
  end.

Definition roe_line (data : Combined) : option string :=
  match number_guard (roe data) with
  | Some r => Some ("💹 Return on Equity: " ++ toFixed2 r ++ "%")
  | None => None
  end.

Definition book_value_line (data : Combined) : option string :=
  match number_guard (book_value data) with
  | Some b => Some ("📖 Book Value: ₹" ++ toFixed2 b)
  | None => None
  end.

(** The [risk] variable of the risk block. *)
Definition risk (data : Combined) : string :=
  match number_guard (pe_ratio data), number_guard (roe data) with
  | Some pe, Some roe =>
      if num_lt pe (num 20) && num_gt roe (num 15) then "Low Risk"
      else if num_gt pe (num 50) then "High Risk"
      else "Medium Risk"
  | _, _ => "Medium Risk"
  end.

Definition risk_line (data : Combined) : string :=
  "⚠️ Risk Level: " ++ risk data.

(** The [summary] array just before it is joined. *)
Definition summary_lines (stockSymbol : string) (data : Combined) : list string :=
  [title_line stockSymbol data; price_line data]
  ++ opt_line (change_line data)
  ++ opt_line (market_cap_line data)
  ++ opt_line (pe_line data)
  ++ opt_line (roe_line data)
  ++ opt_line (book_value_line data)
  ++ [risk_line data].

(** [generateSummary()]: merges, renders, stores and returns the text. *)
Definition generateSummary (sc : Scraper) : string * Scraper :=
  let (data, sc1) := getCombinedData sc in
  let text := String.concat nl (summary_lines (stockSymbol sc1) data) in
  (text, with_summary (JSString text) sc1).

(** *** generateBasicSummary *)

(** The [valuation] and [riskLevel] variables of the fallback. *)
Definition basic_valuation (data : Combined) : string :=
  match number_guard (pe_ratio data) with
  | Some pe =>
      if num_lt pe (num 15) then "Cheap (Low P/E)"
      else if num_gt pe (num 30) then "Expensive (High P/E)"
      else "Fair"
  | None => "Fair"
  end.

Definition basic_riskLevel (data : Combined) : string :=
  match number_guard (pe_ratio data) with
  | Some pe =>
      if num_gt pe (num 50) then "High"
      else if num_lt pe (num 20) then "Low-Moderate"
      else "Moderate"
  | None => "Moderate"
  end.

(** What each of the three probes pushes: to [strengths] on the left, to
    [concerns] on the right. *)
Definition roe_finding (data : Combined) : list string * list string :=
  match number_guard (roe data) with
  | Some r =>
      if num_gt r (num 15)
      then (["Good ROE indicating profitability"], [])
      else ([], ["Low ROE, profitability concerns"])
  | None => ([], [])
  end.

Definition market_cap_finding (data : Combined) : list string * list string :=
  match number_guard (market_cap data) with
  | Some m =>
      if num_gt m (num 100000) then (["Large-cap stock, stable"], []) else ([], [])
  | None => ([], [])
  end.

Definition change_finding (data : Combined) : list string * list string :=
  if truthy (change_percent data)
  then if num_gt (parseFloat (change_percent data)) (num 0)
       then (["Positive price momentum"], [])
       else ([], ["Recent price decline"])
  else ([], []).

Definition or_default (l : list string) (d : string) : list string :=
  match l with [] => [d] | _ => l end.

Definition strengths (data : Combined) : list string :=
  or_default (fst (roe_finding data) ++ fst (market_cap_finding data)
              ++ fst (change_finding data))
             "Data limited for full analysis".

Definition concerns (data : Combined) : list string :=
  or_default (snd (roe_finding data) ++ snd (market_cap_finding data)
              ++ snd (change_finding data))
             "Limited historical data available".

Definition bullets (l : list string) : string :=
  String.concat nl (map (fun s => "* " ++ s) l).

Definition priceStr (data : Combined) : string :=
  match number_guard (current_price data) with
  | Some p => "₹" ++ toFixed2 p
  | None => "N/A"
  end.

(** [generateBasicSummary(data)]. *)
Definition generateBasicSummary (sc : Scraper) (data : Combined) : string :=
  let sourcesCount := sources_count sc in
  String.concat nl
    [ "Stock: " ++ ToString (company_name data) ++ " (" ++ stockSymbol sc ++ ")";
      "Current Price: " ++ priceStr data ++ "  |  Change: "
        ++ ToString (change_percent data '||' JSString "N/A") ++ "%";
      "Valuation: " ++ basic_valuation data;
      "Risk Level: " ++ basic_riskLevel data;
      "Strengths:";
      bullets (strengths data);
      "Concerns:";
      bullets (concerns data);
      "Data Reliability: " ++ (if (2 <=? sourcesCount)%nat then "Good" else "Fair")
        ++ " (" ++ Number_toString (num (Z.of_nat sourcesCount))
        ++ " Sources Verified)" ].

(** The prompt [generateFinalSummary] sends. *)
Definition prompt_text (sc : Scraper) (data : Combined) : string :=
  let na v := ToString (v '||' JSString "N/A") in
  String.concat nl
    [ "You are a professional stock analyst. Analyze the following stock data and provide a concise summary in this EXACT format:";
      "";
      "Stock: " ++ ToString (company_name data) ++ " (" ++ stockSymbol sc ++ ")";
      "Current Price: ₹" ++ na (current_price data) ++ "  |  Change: "
        ++ na (change_percent data) ++ "%";
      "Valuation: [Cheap/Fair/Expensive] (explain briefly)";
      "Risk Level: [Low/Moderate/High]";
      "Strengths:";
      "* [strength 1]";
      "* [strength 2]";
      "Concerns:";
      "* [concern 1]";
      "* [concern 2]";
      "Data Reliability: [Good/Fair/Limited] ([X] Sources Verified)";
      "";
      "Stock Data:";
      "- Stock Symbol: " ++ stockSymbol sc;
      "- Company Name: " ++ na (company_name data);
      "- Current Price: ₹" ++ na (current_price data);
      "- Price Change: " ++ na (change_percent data) ++ "%";
      "- P/E Ratio: " ++ na (pe_ratio data);
      "- Return on Equity (ROE): " ++ na (roe data) ++ "%";
      "- Market Cap: ₹" ++ na (market_cap data) ++ " Cr";
      "- Book Value: ₹" ++ na (book_value data);
      "";
      "Instructions:";
      "1. Keep the response concise and professional";
      "2. Valuation should be based on P/E ratio: <15 = Cheap, 15-30 = Fair, >30 = Expensive";
      "3. Risk level should consider P/E, market cap, and volatility";
      "4. List 2-3 strengths and 2-3 concerns based on the metrics";
      "5. Data reliability based on how many metrics are available";
      "6. Use the exact format shown above" ].

(** *** generateFinalSummary *)

Definition openai_url : string := "https://api.openai.com/v1/chat/completions".

(** [!openaiApiKey]: the variable is unset or empty. *)
Definition key_missing (key : option string) : bool :=
  match key with
  | None => true
  | Some k => string_empty k
  end.

(** [generateFinalSummary()]: the returned object, the scraper after the
    call and the request issued, if any. *)
Definition generateFinalSummary (w : World) (sc : Scraper)
  : Final.t * Scraper * list NetCall :=
  let (data, sc1) := getCombinedData sc in
  let prompt := prompt_text sc1 data in
  if key_missing (OPENAI_API_KEY w)
  then (Final.mk (JSString (generateBasicSummary sc1 data)) prompt undefined
                 (JSString "OpenAI API key not configured"),
        sc1, [])
  else
    match openai_response w with
    | Completed aiSummary =>
        (Final.mk aiSummary prompt (JSString "gpt-3.5-turbo") undefined,
         sc1, [POST openai_url])
    | Failed msg =>
        (Final.mk (JSString (generateBasicSummary sc1 data)) prompt undefined
                  (JSString msg),
         sc1, [POST openai_url])
    end.

(** The enrichment is unavailable for [reason]: the key is not
    configured, or the call failed with [reason] as its message. *)
Definition enrichment_unavailable (w : World) (reason : string) : Prop :=
  (key_missing (OPENAI_API_KEY w) = true
   /\ reason = "OpenAI API key not configured")
  \/ (key_missing (OPENAI_API_KEY w) = false
      /\ openai_response w = Failed reason).

(** ** POST /api/analyze *)

(** The reply of the [catch] block of the handler. *)
Definition server_error (w : World) (e : Error) : HttpResponse :=
  mkResponse 500
    (FailureBody
       (Failure.mk false
          (if string_empty (message e)
           then "Internal server error while analyzing stock"
           else message e)
          (match NODE_ENV w with
           | Some "development" => JSString (stack_trace w)
           | _ => undefined
           end))).

Definition bad_request : HttpResponse :=
  mkResponse 400 (FailureBody (Failure.mk false "Stock symbol is required" undefined)).

(** The handler, on the [symbol] property of the request body: the reply
    and the network requests issued on the way. *)
Definition analyze (w : World) (symbol : JSValue) : HttpResponse * list NetCall :=
  if negb (truthy symbol) then (bad_request, [])
  else
    match symbol with
    | JSString sym =>
        let scraper := new_scraper (now w) sym in
        match scrapeAllSources w scraper with
        | (Thrown e, calls) => (server_error w e, calls)
        | (Returned sc1, calls) =>
            let (_, sc2) := generateSummary sc1 in
            let '(finalSummary, sc3, calls') := generateFinalSummary w sc2 in
            (mkResponse 200
               (ReportBody
                  (Report.mk true
                     (toUpperCase sym)
                     (scraped_at (data sc3))
                     (summary (data sc3))
                     (Final.summary finalSummary)
                     (Final.prompt finalSummary)
                     (Final.model finalSummary '||' JSString "basic")
                     (Final.error finalSummary '||' null)
                     (getSourcesList sc3)
                     (sources (data sc3))
                     (combined_data (data sc3)))),
             (calls ++ calls')%list)
        end
    | _ =>
        (* [stockSymbol.toUpperCase] is missing on a value that is not a string *)
        (server_error w (mkError "stockSymbol.toUpperCase is not a function"), [])
    end.

(** * Properties *)

(** ** Truthiness and the [||] chains *)

Lemma js_or_assoc (a b c : JSValue) :
  js_or (js_or a b) c = js_or a (js_or b c).
Proof.
  unfold js_or. destruct (truthy a) eqn:Ha.
  - now rewrite Ha.
  - reflexivity.
Qed.

Lemma or_chain_cons (v : JSValue) (r : list JSValue) :
  r <> [] -> or_chain (v :: r) = js_or v (or_chain r).
Proof. destruct r; [congruence | reflexivity]. Qed.

Lemma or_chain_truthy_head (v : JSValue) (r : list JSValue) :
  truthy v = true -> or_chain (v :: r) = v.
Proof.
  intros Hv. destruct r; [reflexivity |].
  cbn [or_chain]. unfold js_or. now rewrite Hv.
Qed.

Lemma or_chain_falsy_head (v : JSValue) (r : list JSValue) :
  truthy v = false -> r <> [] -> or_chain (v :: r) = or_chain r.
Proof.
  intros Hv Hr. rewrite or_chain_cons by assumption.
  unfold js_or. now rewrite Hv.
Qed.

(** The first truthy operand of a chain is its value. *)
Lemma or_chain_first_truthy (pre post : list JSValue) (v : JSValue) :
  Forall (fun x => truthy x = false) pre ->
  truthy v = true ->
  or_chain (pre ++ v :: post) = v.
Proof.
  induction 1 as [| x pre Hx _ IH]; intros Hv; cbn [app].
  - now apply or_chain_truthy_head.
  - rewrite or_chain_falsy_head; auto.
    now destruct pre.
Qed.

(** A falsy operand that is not the last one can be dropped. *)
Lemma or_chain_skip_falsy (pre post : list JSValue) (v : JSValue) :
  truthy v = false -> post <> [] ->
  or_chain (pre ++ v :: post) = or_chain (pre ++ post).
Proof.
  intros Hv Hpost. induction pre as [| x pre IH]; cbn [app].
  - now apply or_chain_falsy_head.
  - rewrite !or_chain_cons; [now rewrite IH | |]; now destruct pre, post.
Qed.

(** A chain whose operands are all absent is absent. *)
Lemma or_chain_absent (l : list JSValue) :
  Forall (fun x => absent x = true) l -> absent (or_chain l) = true.
Proof.
  induction 1 as [| x l Hx Hl IH]; [reflexivity |].
  destruct l as [| y l]; [exact Hx |].
  rewrite or_chain_cons by discriminate.
  unfold js_or. now destruct x.
Qed.

Lemma or_chain_undefined (l : list JSValue) :
  Forall (fun x => x = undefined) l -> or_chain l = undefined.
Proof.
  induction 1 as [| x l Hx Hl IH]; [reflexivity |].
  destruct l as [| y l]; [exact Hx |].
  rewrite or_chain_cons by discriminate.
  subst x. exact IH.
Qed.

Lemma absent_falsy (v : JSValue) : absent v = true -> truthy v = false.
Proof. now destruct v. Qed.

Lemma is_zero_falsy (v : JSValue) : is_zero v = true -> truthy v = false.
Proof.
  destruct v as [| | |[| |q]| |]; try discriminate.
  cbn. now intros ->.
Qed.

Lemma is_zero_not_absent (v : JSValue) : is_zero v = true -> absent v = false.
Proof. now destruct v. Qed.

(** The guard [v && typeof v === 'number'], as [number_guard] decides it. *)
Lemma number_guard_iff (v : JSValue) :
  truthy v && typeof_number v = true <-> exists n, number_guard v = Some n.
Proof.
  destruct v as [| | b | n | s | r]; cbn;
    try (rewrite ?andb_false_r; split; [discriminate | intros [? ?]; discriminate]).
  rewrite andb_true_r. destruct (number_truthy n); split; eauto.
  - discriminate.
  - intros [? ?]; discriminate.
Qed.

Lemma number_guard_none (v : JSValue) :
  truthy v && typeof_number v = false <-> number_guard v = None.
Proof.
  destruct v as [| | b | n | s | r]; cbn; rewrite ?andb_false_r, ?andb_true_r;
    try tauto.
  destruct (number_truthy n); split; congruence.
Qed.

Lemma number_guard_finite (q : Q) :
  ~ q == 0 -> number_guard (JSNumber (Finite q)) = Some (Finite q).
Proof.
  intros Hq. cbn. destruct (Qeq_bool q 0) eqn:E; [| reflexivity].
  apply Qeq_bool_iff in E. contradiction.
Qed.

Lemma number_guard_zero (v : JSValue) : is_zero v = true -> number_guard v = None.
Proof.
  destruct v as [| | |[| |q]| |]; try discriminate.
  cbn. now intros ->.
Qed.

(** ** getCombinedData *)

(** Each property of the merged record is the [||] chain of its operands. *)
Lemma combine_is_chain (sc : Scraper) (f : Field) :
  field (combine sc) f = or_chain (operands sc f).
Proof.
  destruct f; cbn; rewrite ?js_or_assoc; reflexivity.
Qed.

Lemma getCombinedData_combine (sc : Scraper) :
  fst (getCombinedData sc) = combine sc.
Proof. reflexivity. Qed.

Lemma operands_split (sc : Scraper) (f : Field) (pre post : list SourceKey) (A : SourceKey) :
  priority f = (pre ++ A :: post)%list ->
  exists rest,
    operands sc f =
      (map (fun k => provided (sources (data sc)) k f) pre
       ++ provided (sources (data sc)) A f :: rest)%list
    /\ (post <> [] -> rest <> [])
    /\ (f <> f_company_name ->
        rest = map (fun k => provided (sources (data sc)) k f) post).
Proof.
  intros Hp. unfold operands. rewrite Hp, map_app. cbn [map].
  rewrite <- app_assoc. cbn [app]. eexists. split; [reflexivity |]. split.
  - intros Hpost. destruct post; [congruence | discriminate].
  - intros Hf. destruct f; try congruence; now rewrite app_nil_r.
Qed.

(** The first source with a truthy value decides the merged property,
    whatever the sources after it hold. *)
Lemma first_truthy_source_wins (sc : Scraper) (f : Field)
      (pre post : list SourceKey) (A : SourceKey) :
  priority f = (pre ++ A :: post)%list ->
  (forall H, In H pre -> truthy (provided (sources (data sc)) H f) = false) ->
  truthy (provided (sources (data sc)) A f) = true ->
  field (combine sc) f = provided (sources (data sc)) A f.
Proof.
  intros Hp Hpre HA.
  rewrite combine_is_chain.
  destruct (operands_split sc f pre post A Hp) as (rest' & Hops & _).
  rewrite Hops. apply or_chain_first_truthy; [| assumption].
  apply Forall_forall. intros v Hv. apply in_map_iff in Hv.
  destruct Hv as (k & <- & Hk). now apply Hpre.
Qed.

Ltac use_higher_ranks Hup :=
  let Hy := fresh "Hy" in
  let Hn := fresh "Hn" in
  let Hs := fresh "Hs" in
  pose proof (Hup yahoo_finance_key) as Hy;
  pose proof (Hup nse_key) as Hn;
  pose proof (Hup screener_key) as Hs;
  clear Hup; cbn in Hy, Hn, Hs;
  try specialize (Hy ltac:(lia));
  try specialize (Hn ltac:(lia));
  try specialize (Hs ltac:(lia)).

(** C1, as amended.  For every merged property and every source [A] that
    ranks above some source [B] in the chain of that property
    (price: Yahoo, NSE, Screener; change percent: Yahoo, NSE; company name:
    NSE, Screener; P/E: Screener, NSE): when the value of [A] is truthy
    and no source ranked above [A] has a truthy value, the merged property
    is the value of [A], whatever [B] provides.  The merged record holds
    values only; it has no provenance to cite. *)
Theorem getCombinedData_priority (sc : Scraper) (f : Field) (A B : SourceKey) :
  ranks_above f A B ->
  truthy (provided (sources (data sc)) A f) = true ->
  (forall H, ranks_above f H A ->
             truthy (provided (sources (data sc)) H f) = false) ->
  field (fst (getCombinedData sc)) f = provided (sources (data sc)) A f.
Proof.
  intros HAB HA Hup. rewrite getCombinedData_combine.
  destruct f, A, B; cbn in HAB; try lia; try contradiction;
    use_higher_ranks Hup; cbn in HA |- *; unfold js_or;
    repeat match goal with
           | E : truthy ?v = _ |- context [truthy ?v] => rewrite E
           end;
    reflexivity.
Qed.

(** C8, as amended.  When every source a property is read from leaves it
    absent (missing or null), the merged property is absent too, and
    [undefined] when all of them left it missing: no zero and no
    placeholder is put in its place.  The company name is the exception:
    its chain ends with the upper-cased stock symbol, which the merge
    stores when no source names the company. *)
Theorem unresolved_field_stays_absent (sc : Scraper) (f : Field) :
  (forall k, In k (priority f) ->
             absent (provided (sources (data sc)) k f) = true) ->
  (f <> f_company_name -> absent (field (fst (getCombinedData sc)) f) = true)
  /\ (f <> f_company_name ->
      (forall k, In k (priority f) -> provided (sources (data sc)) k f = undefined) ->
      field (fst (getCombinedData sc)) f = undefined)
  /\ (f = f_company_name ->
      field (fst (getCombinedData sc)) f = JSString (stockSymbol sc)).
Proof.
  intros Habs. rewrite getCombinedData_combine, combine_is_chain.
  repeat split.
  - intros Hf. apply or_chain_absent. unfold operands.
    replace (match f with f_company_name => _ | _ => [] end)
      with (@nil JSValue) by (destruct f; congruence).
    rewrite app_nil_r. apply Forall_forall. intros v Hv.
    apply in_map_iff in Hv. destruct Hv as (k & <- & Hk). auto.
  - intros Hf Hundef. apply or_chain_undefined. unfold operands.
    replace (match f with f_company_name => _ | _ => [] end)
      with (@nil JSValue) by (destruct f; congruence).
    rewrite app_nil_r. apply Forall_forall. intros v Hv.
    apply in_map_iff in Hv. destruct Hv as (k & <- & Hk). auto.
  - intros ->. cbn.
    pose proof (Habs nse_key (or_introl eq_refl)) as Hn.
    pose proof (Habs screener_key (or_intror (or_introl eq_refl))) as Hs.
    cbn in Hn, Hs. unfold js_or.
    now rewrite (absent_falsy _ Hn), (absent_falsy _ Hs).
Qed.

(** ** Comparisons against the thresholds *)

Lemma Qlt_bool_reflect (x y : Q) : reflect (x < y)%Q (Qlt_bool x y).
Proof.
  unfold Qlt_bool. destruct (Qle_bool y x) eqn:E; constructor.
  - apply Qle_bool_iff in E. now apply Qle_not_lt.
  - apply Qnot_le_lt. intros H. apply Qle_bool_iff in H. congruence.
Qed.

Lemma Qle_bool_reflect (x y : Q) : reflect (x <= y)%Q (Qle_bool x y).
Proof.
  destruct (Qle_bool x y) eqn:E; constructor.
  - now apply Qle_bool_iff.
  - intros H. apply Qle_bool_iff in H. congruence.
Qed.

(** Decides the comparisons of a goal about finite numbers and hands the
    arithmetic to [lra]. *)
Ltac thresholds :=
  cbn [num_lt num_gt num_le num_ge num andb];
  repeat match goal with
         | |- context [Qlt_bool ?x ?y] =>
             destruct (Qlt_bool_reflect x y); cbn [andb]
         | |- context [Qle_bool ?x ?y] =>
             destruct (Qle_bool_reflect x y); cbn [andb]
         end;
  unfold inject_Z in *;
  first [ reflexivity | exfalso; lra ].

(** ** The classification *)

Lemma valuation_cheap (q : Q) : (q < 15)%Q -> valuation (Finite q) = "Cheap".
Proof. intros H. unfold valuation. thresholds. Qed.

Lemma valuation_fair (q : Q) : (15 <= q <= 30)%Q -> valuation (Finite q) = "Fair".
Proof. intros [H1 H2]. unfold valuation. thresholds. Qed.

Lemma valuation_expensive (q : Q) :
  (30 < q <= 50)%Q -> valuation (Finite q) = "Expensive".
Proof. intros [H1 H2]. unfold valuation. thresholds. Qed.

Lemma valuation_very_expensive (q : Q) :
  (50 < q)%Q -> valuation (Finite q) = "Very Expensive".
Proof. intros H. unfold valuation. thresholds. Qed.

Lemma pe_line_some (data : Combined) (pe : number) :
  number_guard (pe_ratio data) = Some pe ->
  pe_line data
  = Some ("📊 P/E Ratio: " ++ toFixed2 pe ++ " (" ++ valuation pe ++ ")").
Proof. intros H. unfold pe_line. now rewrite H. Qed.

Lemma pe_line_none (data : Combined) :
  number_guard (pe_ratio data) = None -> pe_line data = None.
Proof. intros H. unfold pe_line. now rewrite H. Qed.

Lemma basic_valuation_none (data : Combined) :
  number_guard (pe_ratio data) = None ->
  basic_valuation data = "Fair" /\ basic_riskLevel data = "Moderate".
Proof. intros H. unfold basic_valuation, basic_riskLevel. now rewrite H. Qed.

Lemma risk_unguarded (data : Combined) :
  number_guard (pe_ratio data) = None \/ number_guard (roe data) = None ->
  risk data = "Medium Risk".
Proof.
  intros [H | H]; unfold risk; rewrite H; [reflexivity |].
  now destruct (number_guard (pe_ratio data)).
Qed.

(** C3, as amended.  For every merged record whose P/E ratio is a number
    other than zero, the P/E line carries the tier Cheap below 15, Fair
    from 15 to 30 inclusive, Expensive above 30 up to 50, Very Expensive
    above 50; so 14.99 is Cheap, 15 and 30 are Fair, 30.01 and 50 are
    Expensive, 50.01 is Very Expensive.  When the P/E ratio is missing,
    zero or not a number, the summary has no P/E line, hence no tier, and
    the valuation of the fallback summary is Fair. *)
Theorem valuation_tiers (data : Combined) :
  (forall q : Q,
      pe_ratio data = JSNumber (Finite q) -> ~ (q == 0)%Q ->
      pe_line data
      = Some ("📊 P/E Ratio: " ++ toFixed2 (Finite q)
              ++ " (" ++ valuation (Finite q) ++ ")")
      /\ ((q < 15)%Q -> valuation (Finite q) = "Cheap")
      /\ ((15 <= q <= 30)%Q -> valuation (Finite q) = "Fair")
      /\ ((30 < q <= 50)%Q -> valuation (Finite q) = "Expensive")
      /\ ((50 < q)%Q -> valuation (Finite q) = "Very Expensive"))
  /\ (truthy (pe_ratio data) && typeof_number (pe_ratio data) = false ->
      pe_line data = None /\ basic_valuation data = "Fair")
  /\ valuation (Finite 14.99) = "Cheap"
  /\ valuation (Finite 15) = "Fair"
  /\ valuation (Finite 30) = "Fair"
  /\ valuation (Finite 30.01) = "Expensive"
  /\ valuation (Finite 50) = "Expensive"
  /\ valuation (Finite 50.01) = "Very Expensive".
Proof.
  split; [| split; [| repeat split]].
  - intros q Hpe Hq. split.
    + apply pe_line_some. rewrite Hpe. now apply number_guard_finite.
    + auto using valuation_cheap, valuation_fair, valuation_expensive,
        valuation_very_expensive.
  - intros H. apply number_guard_none in H. split.
    + now apply pe_line_none.
    + now apply basic_valuation_none.
Qed.

(** C4, as amended.  The risk tier is Medium unless both the P/E ratio
    and the return on equity are numbers other than zero.  When they
    are, it is Low if the ratio is below 20 and the return above 15, High
    if the ratio is above 50, and Medium otherwise; the two conditions
    exclude each other, so neither has to win over the other.  A ratio
    of 10 with a return of 20 gives Low, a ratio of 60 with a return of
    20 gives High. *)
Theorem risk_tiers (data : Combined) :
  (forall p r : Q,
      pe_ratio data = JSNumber (Finite p) -> roe data = JSNumber (Finite r) ->
      ~ (p == 0)%Q -> ~ (r == 0)%Q ->
      ((p < 20 /\ 15 < r)%Q -> risk data = "Low Risk")
      /\ ((50 < p)%Q -> risk data = "High Risk")
      /\ (~ (p < 20 /\ 15 < r)%Q -> (p <= 50)%Q -> risk data = "Medium Risk"))
  /\ (truthy (pe_ratio data) && typeof_number (pe_ratio data) = false
      \/ truthy (roe data) && typeof_number (roe data) = false ->
      risk data = "Medium Risk")
  /\ risk (Examples.pe_and_roe 10 20) = "Low Risk"
  /\ risk (Examples.pe_and_roe 60 20) = "High Risk".
Proof.
  split; [| split; [| split; reflexivity]].
  - intros p r Hp Hr Hp0 Hr0. unfold risk.
    rewrite Hp, Hr, !number_guard_finite by assumption.
    repeat split.
    + intros [H1 H2]. thresholds.
    + intros H. thresholds.
    + intros H1 H2. thresholds.
  - intros H. apply risk_unguarded.
    destruct H as [H | H]; apply number_guard_none in H; auto.
Qed.

(** ** generateSummary *)

Lemma append_assoc (a b c : string) : (a ++ b) ++ c = a ++ (b ++ c).
Proof. induction a as [| x a IH]; cbn; [reflexivity | now rewrite IH]. Qed.

(** The joined text of a list ends with the last element of the list. *)
Lemma concat_ends_with_last (sep : string) (l : list string) (x : string) :
  exists front, String.concat sep (l ++ [x]) = front ++ x.
Proof.
  induction l as [| a l [front IH]]; cbn [app].
  - now exists "".
  - exists (a ++ sep ++ front).
    destruct (l ++ [x])%list eqn:E.
    + now destruct l.
    + cbn [String.concat]. cbn [String.concat] in IH.
      now rewrite IH, !append_assoc.
Qed.

(** The joined text of a list of three or more starts with its first two
    elements, each followed by the separator. *)
Lemma concat_starts_with_two (sep a b : string) (l : list string) :
  l <> [] ->
  String.concat sep (a :: b :: l) = a ++ sep ++ b ++ sep ++ String.concat sep l.
Proof. destruct l; [congruence | reflexivity]. Qed.

Lemma guarded_line_iff (v : JSValue) (render : number -> string) :
  (exists l, match number_guard v with
             | Some n => Some (render n)
             | None => None
             end = Some l)
  <-> truthy v && typeof_number v = true.
Proof.
  rewrite number_guard_iff. destruct (number_guard v); split; eauto.
  - intros [? ?]; discriminate.
  - intros [? ?]; discriminate.
Qed.

Lemma direction_of_number (q : Q) :
  ((0 <= q)%Q -> direction (JSNumber (Finite q)) = "UP")
  /\ ((q < 0)%Q -> direction (JSNumber (Finite q)) = "DOWN").
Proof.
  unfold direction, parseFloat. split; intros H; thresholds.
Qed.

Lemma risk_values (data : Combined) :
  risk data = "Low Risk" \/ risk data = "Medium Risk" \/ risk data = "High Risk".
Proof.
  unfold risk.
  destruct (number_guard (pe_ratio data)) as [pe |]; [| now auto].
  destruct (number_guard (roe data)) as [r |]; [| now auto].
  destruct (num_lt pe (num 20) && num_gt r (num 15)); [now auto |].
  destruct (num_gt pe (num 50)); auto.
Qed.

(** C6, as amended.  The summary [generateSummary] stores and returns is
    its lines joined by line feeds: the title, the price line, then the
    change, market-cap, P/E, ROE and book-value lines that apply, in this
    order, and last the risk line.  The price line is always there and
    shows N/A unless the price is a number other than zero; the risk line
    is always last and names one of the three tiers.  The change line is
    there exactly when the change percent is truthy, and says UP when the
    parsed change is at least zero and DOWN otherwise.  Each of the
    market-cap, P/E, ROE and book-value lines is there exactly when its
    property is a number other than zero. *)
Theorem summary_shape (sc : Scraper) :
  let merged := fst (getCombinedData sc) in
  let lines := summary_lines (stockSymbol sc) merged in
  fst (generateSummary sc) = String.concat nl lines
  /\ summary (data (snd (generateSummary sc))) = JSString (String.concat nl lines)
  /\ lines = ([title_line (stockSymbol sc) merged; price_line merged]
              ++ opt_line (change_line merged)
              ++ opt_line (market_cap_line merged)
              ++ opt_line (pe_line merged)
              ++ opt_line (roe_line merged)
              ++ opt_line (book_value_line merged)
              ++ [risk_line merged])%list
  /\ nth_error lines 1 = Some (price_line merged)
  /\ (exists rest,
         fst (generateSummary sc)
         = title_line (stockSymbol sc) merged ++ nl ++ price_line merged ++ nl ++ rest)
  /\ (exists front, fst (generateSummary sc) = front ++ risk_line merged)
  /\ (truthy (current_price merged) && typeof_number (current_price merged) = false ->
      price_line merged = "💰 Current Price: N/A")
  /\ (forall p, number_guard (current_price merged) = Some p ->
                price_line merged = "💰 Current Price: ₹" ++ toFixed2 p)
  /\ last lines "" = risk_line merged
  /\ risk_line merged = "⚠️ Risk Level: " ++ risk merged
  /\ (risk merged = "Low Risk" \/ risk merged = "Medium Risk" \/ risk merged = "High Risk")
  /\ (truthy (change_percent merged) = false -> change_line merged = None)
  /\ (truthy (change_percent merged) = true ->
      change_line merged
      = Some ("📈 Today's Change: " ++ ToString (change_percent merged) ++ "% "
              ++ (if num_ge (parseFloat (change_percent merged)) (num 0)
                  then "UP" else "DOWN")))
  /\ (forall q, change_percent merged = JSNumber (Finite q) ->
                ((0 <= q)%Q -> direction (change_percent merged) = "UP")
                /\ ((q < 0)%Q -> direction (change_percent merged) = "DOWN"))
  /\ direction (JSString "0.59") = "UP"
  /\ direction (JSString "0.00") = "UP"
  /\ direction (JSString "-100.00") = "DOWN"
  /\ ((exists l, market_cap_line merged = Some l)
      <-> truthy (market_cap merged) && typeof_number (market_cap merged) = true)
  /\ ((exists l, pe_line merged = Some l)
      <-> truthy (pe_ratio merged) && typeof_number (pe_ratio merged) = true)
  /\ ((exists l, roe_line merged = Some l)
      <-> truthy (roe merged) && typeof_number (roe merged) = true)
  /\ ((exists l, book_value_line merged = Some l)
      <-> truthy (book_value merged) && typeof_number (book_value merged) = true).
Proof.
  intros merged lines.
  repeat match goal with |- _ /\ _ => split end;
    try reflexivity; try apply guarded_line_iff.
  - eexists. unfold generateSummary, getCombinedData, summary_lines.
    cbn [fst snd app stockSymbol with_combined].
    apply concat_starts_with_two.
    rewrite !app_assoc. apply not_eq_sym, app_cons_not_nil.
  - unfold generateSummary, getCombinedData, summary_lines.
    cbn [fst snd stockSymbol with_combined].
    rewrite !app_assoc. apply concat_ends_with_last.
  - intros H. apply number_guard_none in H. unfold price_line. now rewrite H.
  - intros p H. unfold price_line. now rewrite H.
  - subst lines. unfold summary_lines.
    rewrite !app_assoc. apply last_last.
  - apply risk_values.
  - intros H. unfold change_line. now rewrite H.
  - intros H. unfold change_line, direction. now rewrite H.
  - intros q ->. apply direction_of_number.
Qed.

(** ** Zero at the merge and at the rendering *)

Lemma summary_lines_zero (stockSymbol : string) (data : Combined) (f : Field) (z : JSValue) :
  is_zero z = true ->
  summary_lines stockSymbol (set_field data f z)
  = summary_lines stockSymbol (set_field data f undefined).
Proof.
  intros Hz.
  pose proof (number_guard_zero z Hz) as Hg.
  pose proof (is_zero_falsy z Hz) as Ht.
  destruct f;
    unfold summary_lines, title_line, price_line, change_line, market_cap_line,
      pe_line, roe_line, book_value_line, risk_line, risk, js_or;
    cbn [set_field current_price change_percent company_name market_cap
           pe_ratio roe book_value];
    rewrite ?Hg, ?Ht; cbn [number_guard truthy]; reflexivity.
Qed.

(** C10.  A property whose value is the number zero is handled as a
    missing one.  In a chain, a source whose value is zero is passed over
    and the next source's truthy value is merged.  In the summary, a
    merged price of zero renders as N/A, and a merged market cap, P/E,
    ROE or book value of zero has no line; a P/E of zero gets no tier,
    the default Medium risk, and in the fallback summary the Fair
    valuation and the default risk level.  The lines of the summary are
    the same whether a property is zero or missing. *)
Theorem zero_is_treated_as_absent :
  (forall (sc : Scraper) (f : Field) (pre post : list SourceKey) (A B : SourceKey),
      priority f = (pre ++ A :: B :: post)%list ->
      (forall H, In H pre -> truthy (provided (sources (data sc)) H f) = false) ->
      is_zero (provided (sources (data sc)) A f) = true ->
      truthy (provided (sources (data sc)) B f) = true ->
      field (fst (getCombinedData sc)) f = provided (sources (data sc)) B f)
  /\ (forall data : Combined,
         is_zero (current_price data) = true ->
         price_line data = "💰 Current Price: N/A")
  /\ (forall data : Combined,
         is_zero (market_cap data) = true -> market_cap_line data = None)
  /\ (forall data : Combined,
         is_zero (pe_ratio data) = true ->
         pe_line data = None
         /\ risk data = "Medium Risk"
         /\ basic_valuation data = "Fair"
         /\ basic_riskLevel data = "Moderate")
  /\ (forall data : Combined,
         is_zero (roe data) = true -> roe_line data = None)
  /\ (forall data : Combined,
         is_zero (book_value data) = true -> book_value_line data = None)
  /\ (forall (stockSymbol : string) (data : Combined) (f : Field) (z : JSValue),
         is_zero z = true ->
         summary_lines stockSymbol (set_field data f z)
         = summary_lines stockSymbol (set_field data f undefined)).
Proof.
  repeat match goal with |- _ /\ _ => split end.
  - intros sc f pre post A B Hp Hpre HA HB.
    rewrite getCombinedData_combine.
    apply (first_truthy_source_wins sc f (pre ++ [A]) post B).
    + now rewrite <- app_assoc.
    + intros H HH. apply in_app_or in HH. destruct HH as [HH | [<- | []]].
      * now apply Hpre.
      * now apply is_zero_falsy.
    + assumption.
  - intros data H. unfold price_line. now rewrite (number_guard_zero _ H).
  - intros data H. unfold market_cap_line. now rewrite (number_guard_zero _ H).
  - intros data H. apply number_guard_zero in H.
    pose proof (basic_valuation_none data H) as [Hv Hr].
    repeat split; auto using pe_line_none, risk_unguarded.
  - intros data H. unfold roe_line. now rewrite (number_guard_zero _ H).
  - intros data H. unfold book_value_line. now rewrite (number_guard_zero _ H).
  - apply summary_lines_zero.
Qed.

(** ** scrapeAllSources *)

Lemma sourceNames_inj (a b : SourceKey) : sourceNames a = sourceNames b -> a = b.
Proof. destruct a, b; cbn; intros H; try reflexivity; discriminate. Qed.

Lemma In_sourceNames (k : SourceKey) (ks : list SourceKey) :
  In (sourceNames k) (map sourceNames ks) <-> In k ks.
Proof.
  rewrite in_map_iff. split.
  - intros (k' & Heq & Hin). apply sourceNames_inj in Heq. now subst.
  - intros Hin. now exists k.
Qed.

Lemma NoDup_sourceNames (ks : list SourceKey) :
  NoDup ks -> NoDup (map sourceNames ks).
Proof.
  induction 1 as [| k ks Hk _ IH]; cbn; constructor; [| exact IH].
  now rewrite In_sourceNames.
Qed.

(** The slots of [sources] hold what the fetch methods parsed. *)
Lemma scraped_slots (w : World) :
  yahoo_finance (scraped_sources w) = yahoo_response w
  /\ nse (scraped_sources w) = nse_response w
  /\ screener (scraped_sources w) = screener_response w
  /\ moneycontrol (scraped_sources w) = false.
Proof.
  unfold scraped_sources, resume, fetchYahooFinanceData, fetchNSEData, scrapeScreener.
  destruct (completion w), (yahoo_response w), (nse_response w),
    (screener_response w); cbn; auto.
Qed.

(** The keys of [sources] are the keys of the fetches that succeeded,
    each once. *)
Lemma scraped_keys (w : World) :
  (forall k, In k (keys (scraped_sources w)) <-> succeeded w k = true)
  /\ NoDup (keys (scraped_sources w)).
Proof.
  unfold scraped_sources, resume, fetchYahooFinanceData, fetchNSEData,
    scrapeScreener, succeeded.
  destruct (completion w), (yahoo_response w), (nse_response w),
    (screener_response w); cbn;
    (split;
     [ intros k; destruct k; cbn; intuition (discriminate || congruence)
     | repeat constructor; cbn; intuition discriminate ]).
Qed.

Lemma none_succeeded (w : World) :
  (forall k, succeeded w k = false)
  <-> yahoo_response w = None /\ nse_response w = None /\ screener_response w = None.
Proof.
  split.
  - intros H.
    pose proof (H yahoo_finance_key) as Hy.
    pose proof (H nse_key) as Hn.
    pose proof (H screener_key) as Hs.
    cbn in Hy, Hn, Hs.
    destruct (yahoo_response w), (nse_response w), (screener_response w);
      try discriminate; auto.
  - intros (Hy & Hn & Hs) k. destruct k; cbn; now rewrite ?Hy, ?Hn, ?Hs.
Qed.

Lemma some_succeeded (w : World) :
  (exists k, succeeded w k = true)
  <-> ~ (yahoo_response w = None /\ nse_response w = None /\ screener_response w = None).
Proof.
  rewrite <- none_succeeded. split.
  - intros [k Hk] H. rewrite H in Hk. discriminate.
  - intros H.
    destruct (succeeded w yahoo_finance_key) eqn:Hy; [eauto |].
    destruct (succeeded w nse_key) eqn:Hn; [eauto |].
    destruct (succeeded w screener_key) eqn:Hs; [eauto |].
    exfalso. apply H. now intros [].
Qed.

(** [scrapeAllSources] on a fresh scraper: it throws when no fetch
    succeeded and otherwise leaves the scraped sources behind; the three
    requests are issued either way. *)
Lemma scrapeAllSources_fresh (w : World) (now : string) (sym : string) :
  scrapeAllSources w (new_scraper now sym)
  = (match yahoo_response w, nse_response w, screener_response w with
     | None, None, None => Thrown (mkError all_failed_message)
     | _, _, _ => Returned (with_sources (scraped_sources w) (new_scraper now sym))
     end,
     fetch_calls (toUpperCase sym)).
Proof.
  unfold scrapeAllSources, settled_results, fetchYahooFinanceData, fetchNSEData,
    scrapeScreener.
  destruct (yahoo_response w), (nse_response w), (screener_response w);
    reflexivity.
Qed.

(** ** The handler *)

Lemma analyze_falsy (w : World) (symbol : JSValue) :
  truthy symbol = false -> analyze w symbol = (bad_request, []).
Proof. intros H. unfold analyze. now rewrite H. Qed.

Lemma analyze_all_failed (w : World) (sym : string) :
  sym <> "" -> (forall k, succeeded w k = false) ->
  analyze w (JSString sym)
  = (server_error w (mkError all_failed_message), fetch_calls (toUpperCase sym)).
Proof.
  intros Hsym Hnone. apply none_succeeded in Hnone. destruct Hnone as (Hy & Hn & Hs).
  destruct sym as [| c r]; [congruence |].
  unfold analyze. cbn [truthy string_empty negb].
  rewrite scrapeAllSources_fresh, Hy, Hn, Hs. reflexivity.
Qed.

(** The reply when the symbol is a non-empty string and some fetch
    succeeded. *)
Lemma analyze_report (w : World) (sym : string) :
  sym <> "" -> (exists k, succeeded w k = true) ->
  let sc := with_sources (scraped_sources w) (new_scraper (now w) sym) in
  let fin := fst (fst (generateFinalSummary w sc)) in
  analyze w (JSString sym)
  = (mkResponse 200
       (ReportBody
          (Report.mk true (toUpperCase sym) (now w)
             (JSString (fst (generateSummary sc)))
             (Final.summary fin) (Final.prompt fin)
             (js_or (Final.model fin) (JSString "basic"))
             (js_or (Final.error fin) null)
             (map sourceNames (keys (scraped_sources w)))
             (scraped_sources w)
             (combine sc))),
     (fetch_calls (toUpperCase sym) ++ snd (generateFinalSummary w sc))%list).
Proof.
  intros Hsym Hsome sc fin. apply some_succeeded in Hsome.
  destruct sym as [| c r]; [congruence |].
  unfold analyze. cbn [truthy string_empty negb].
  rewrite scrapeAllSources_fresh. fold sc.
  assert (Hret :
    match yahoo_response w, nse_response w, screener_response w with
    | None, None, None => Thrown (mkError all_failed_message)
    | _, _, _ => Returned sc
    end = Returned sc).
  { destruct (yahoo_response w), (nse_response w), (screener_response w);
      try reflexivity. exfalso. now apply Hsome. }
  rewrite Hret. subst fin.
  unfold generateSummary, generateFinalSummary, getCombinedData.
  destruct (key_missing (OPENAI_API_KEY w)); [reflexivity |].
  destruct (openai_response w); reflexivity.
Qed.

Lemma generateFinalSummary_fallback (w : World) (sc : Scraper) (reason : string) :
  enrichment_unavailable w reason ->
  fst (fst (generateFinalSummary w sc))
  = Final.mk (JSString (generateBasicSummary sc (combine sc)))
             (prompt_text sc (combine sc)) undefined (JSString reason).
Proof.
  unfold generateFinalSummary, getCombinedData.
  intros [[Hk ->] | [Hk Hr]]; rewrite Hk; [reflexivity |].
  rewrite Hr. reflexivity.
Qed.

(** C2.  For a request with a non-empty symbol: when none of the three
    fetches succeeds, the handler replies with status 500 and the
    all-sources-failed error, and no report; when at least one succeeds,
    it replies with status 200 and a report, built from exactly what the
    successful fetches stored. *)
Theorem all_sources_failed_is_fatal (w : World) (sym : string) :
  sym <> "" ->
  ((forall k, succeeded w k = false) ->
   exists f, fst (analyze w (JSString sym)) = mkResponse 500 (FailureBody f)
             /\ Failure.success f = false
             /\ Failure.error f = all_failed_message)
  /\ ((exists k, succeeded w k = true) ->
      exists r, fst (analyze w (JSString sym)) = mkResponse 200 (ReportBody r)
                /\ Report.success r = true
                /\ yahoo_finance (Report.raw_data r) = yahoo_response w
                /\ nse (Report.raw_data r) = nse_response w
                /\ screener (Report.raw_data r) = screener_response w).
Proof.
  intros Hsym. split.
  - intros Hnone. rewrite analyze_all_failed by assumption.
    eexists. cbn. repeat split.
  - intros Hsome. rewrite analyze_report by assumption.
    eexists. split; [reflexivity |]. cbn [Report.success Report.raw_data].
    pose proof (scraped_slots w) as (Hy & Hn & Hs & _). auto.
Qed.

(** C5, as amended.  For a request with a non-empty symbol for which
    some fetch succeeded: when the API key is not configured, or the
    enrichment call fails, the handler still replies with status 200 and
    a report; the final summary of the report is the text of
    [generateBasicSummary] on the merged record and its [ai_model] is
    [basic].  Its [ai_error] is the reason (the fixed text about the key,
    or the message of the error) when that text is not empty, and [null]
    when the call failed with an empty message. *)
Theorem enrichment_failure_is_not_fatal (w : World) (sym reason : string) :
  sym <> "" ->
  (exists k, succeeded w k = true) ->
  enrichment_unavailable w reason ->
  exists r sc,
    fst (analyze w (JSString sym)) = mkResponse 200 (ReportBody r)
    /\ Report.success r = true
    /\ stockSymbol sc = toUpperCase sym
    /\ sources (data sc) = Report.raw_data r
    /\ Report.final_summary r
       = JSString (generateBasicSummary sc (Report.combined_data r))
    /\ Report.combined_data r = fst (getCombinedData sc)
    /\ Report.ai_error r = (if string_empty reason then null else JSString reason)
    /\ (reason <> "" -> Report.ai_error r = JSString reason)
    /\ (key_missing (OPENAI_API_KEY w) = true ->
        Report.ai_error r = JSString "OpenAI API key not configured")
    /\ Report.ai_model r = JSString "basic".
Proof.
  intros Hsym Hsome Hun.
  rewrite analyze_report by assumption.
  rewrite (generateFinalSummary_fallback _ _ _ Hun).
  eexists. exists (with_sources (scraped_sources w) (new_scraper (now w) sym)).
  split; [reflexivity |].
  cbn [Report.success Report.final_summary Report.combined_data Report.raw_data
       Report.ai_error Report.ai_model Final.summary Final.error Final.model].
  repeat split.
  - now destruct reason.
  - intros Hreason. destruct reason; [congruence | reflexivity].
  - intros Hkey. destruct Hun as [[_ ->] | [Hk _]]; [reflexivity | congruence].
Qed.


(** C9.  For a request with a non-empty symbol for which at least one
    fetch succeeded (all three or fewer), the handler replies with status
    200 and a report whose [sources] list holds the display name of a
    source exactly when the fetch of that source succeeded, each name
    once and no other entry. *)
Theorem sources_list_names_the_successes (w : World) (sym : string) :
  sym <> "" ->
  (exists k, succeeded w k = true) ->
  exists r,
    fst (analyze w (JSString sym)) = mkResponse 200 (ReportBody r)
    /\ (forall k, In (sourceNames k) (Report.sources r) <-> succeeded w k = true)
    /\ NoDup (Report.sources r)
    /\ (forall name, In name (Report.sources r) ->
                     exists k, name = sourceNames k /\ succeeded w k = true).
Proof.
  intros Hsym Hsome. rewrite analyze_report by assumption.
  eexists. split; [reflexivity |]. cbn [Report.sources].
  pose proof (scraped_keys w) as [Hkeys Hnodup]. repeat split.
  - intros H. apply Hkeys. now apply In_sourceNames.
  - intros H. apply In_sourceNames. now apply Hkeys.
  - now apply NoDup_sourceNames.
  - intros name Hin. apply in_map_iff in Hin. destruct Hin as (k & <- & Hk).
    exists k. split; [reflexivity |]. now apply Hkeys.
Qed.

(** * Further properties *)

(** ** The fallback summary *)

Ltac findings_cases data :=
  unfold strengths, concerns, roe_finding, market_cap_finding, change_finding;
  destruct (number_guard (roe data)) as [r |];
  [destruct (num_gt r (num 15)) eqn:Hroe |];
  (destruct (number_guard (market_cap data)) as [m |];
   [destruct (num_gt m (num 100000)) eqn:Hcap |]);
  (destruct (truthy (change_percent data)) eqn:Hchange;
   [destruct (num_gt (parseFloat (change_percent data)) (num 0)) eqn:Hup |]);
  cbn [app fst snd or_default In length].

(** X1.  The strengths and the concerns of the fallback summary are
    never empty: there are one to three strengths and one or two
    concerns, and the generic entry of a section is there exactly when
    no probe contributed to that section. *)
Theorem findings_never_empty (data : Combined) :
  (1 <= length (strengths data) <= 3)%nat
  /\ (1 <= length (concerns data) <= 2)%nat
  /\ (In "Data limited for full analysis" (strengths data)
      <-> (fst (roe_finding data) ++ fst (market_cap_finding data)
           ++ fst (change_finding data))%list = [])
  /\ (In "Limited historical data available" (concerns data)
      <-> (snd (roe_finding data) ++ snd (market_cap_finding data)
           ++ snd (change_finding data))%list = []).
Proof.
  findings_cases data; repeat split; try lia; intros;
    repeat match goal with
           | H : _ \/ _ |- _ => destruct H
           | H : False |- _ => destruct H
           end;
    try discriminate; auto.
Qed.

(** X2.  Each entry of the strengths and concerns has one cause.  The
    ROE entry is a strength when the ROE is a non-zero number above 15
    and a concern when it is a non-zero number of 15 or less; the
    large-cap strength needs a market cap above 100000; a truthy change
    percent is a strength when it parses to more than zero and a concern
    in every other case, a change of exactly zero included. *)
Theorem findings_causes (data : Combined) :
  (In "Good ROE indicating profitability" (strengths data)
   <-> exists r, number_guard (roe data) = Some r /\ num_gt r (num 15) = true)
  /\ (In "Low ROE, profitability concerns" (concerns data)
      <-> exists r, number_guard (roe data) = Some r /\ num_gt r (num 15) = false)
  /\ (In "Large-cap stock, stable" (strengths data)
      <-> exists m, number_guard (market_cap data) = Some m
                    /\ num_gt m (num 100000) = true)
  /\ (In "Positive price momentum" (strengths data)
      <-> truthy (change_percent data) = true
          /\ num_gt (parseFloat (change_percent data)) (num 0) = true)
  /\ (In "Recent price decline" (concerns data)
      <-> truthy (change_percent data) = true
          /\ num_gt (parseFloat (change_percent data)) (num 0) = false).
Proof.
  findings_cases data; repeat split; intros;
    repeat match goal with
           | H : _ \/ _ |- _ => destruct H
           | H : False |- _ => destruct H
           | H : exists _, _ |- _ => destruct H
           | H : _ /\ _ |- _ => destruct H
           | H : Some _ = Some _ |- _ => injection H as <-
           end;
    try discriminate; try congruence; eauto 6.
Qed.

(** Decides every comparison of the goal about finite numbers, keeping
    the arithmetic facts as hypotheses. *)
Ltac compare_all :=
  cbn [num_lt num_gt num_le num_ge num andb negb];
  repeat match goal with
         | |- context [Qlt_bool ?x ?y] =>
             destruct (Qlt_bool_reflect x y); cbn [andb negb]
         | |- context [Qle_bool ?x ?y] =>
             destruct (Qle_bool_reflect x y); cbn [andb negb]
         end;
  unfold inject_Z in *.

Ltac by_cases_on pe :=
  destruct pe as [| [|] | ?q]; compare_all;
  repeat split; intros;
  repeat match goal with
         | H : _ \/ _ |- _ => destruct H
         end;
  try discriminate; try reflexivity; try (exfalso; lra); auto.

(** X3.  The valuation of the fallback summary agrees with the tier of
    the P/E line, except that it has no Very Expensive: it says Cheap
    (Low P/E) exactly when the line says Cheap, Fair exactly when the
    line says Fair, and Expensive (High P/E) exactly when the line says
    Expensive or Very Expensive. *)
Theorem fallback_valuation_agrees (data : Combined) (pe : number) :
  number_guard (pe_ratio data) = Some pe ->
  (basic_valuation data = "Cheap (Low P/E)" <-> valuation pe = "Cheap")
  /\ (basic_valuation data = "Fair" <-> valuation pe = "Fair")
  /\ (basic_valuation data = "Expensive (High P/E)"
      <-> valuation pe = "Expensive" \/ valuation pe = "Very Expensive").
Proof.
  intros H. unfold basic_valuation, valuation. rewrite H. by_cases_on pe.
Qed.

(** X4.  The risk level of the fallback summary never contradicts the
    risk line of the summary: a High risk line comes with the level High,
    a Low risk line with the level Low-Moderate, and the level Moderate
    only with the Medium risk line.  The fallback looks at the P/E alone,
    so it may say High or Low-Moderate next to a Medium risk line. *)
Theorem fallback_risk_follows_summary (data : Combined) :
  (risk data = "High Risk" -> basic_riskLevel data = "High")
  /\ (risk data = "Low Risk" -> basic_riskLevel data = "Low-Moderate")
  /\ (basic_riskLevel data = "Moderate" -> risk data = "Medium Risk").
Proof.
  unfold risk, basic_riskLevel.
  destruct (number_guard (pe_ratio data)) as [pe |];
    [| repeat split; intros; try discriminate; reflexivity].
  destruct (number_guard (roe data)) as [r |].
  - destruct r as [| [|] | r]; by_cases_on pe.
  - by_cases_on pe.
Qed.

(** X5.  The direction of the change line and the momentum entry of the
    fallback summary read the same number differently.  A positive
    momentum entry comes with UP and a DOWN comes with the decline
    entry, but a truthy change percent that parses to exactly zero is
    rendered UP in the summary and as a recent price decline in the
    fallback. *)
Theorem momentum_and_direction (data : Combined) :
  (In "Positive price momentum" (strengths data) ->
   direction (change_percent data) = "UP")
  /\ (truthy (change_percent data) = true ->
      direction (change_percent data) = "DOWN" ->
      In "Recent price decline" (concerns data))
  /\ (forall q : Q,
         truthy (change_percent data) = true ->
         parseFloat (change_percent data) = Finite q -> (q == 0)%Q ->
         direction (change_percent data) = "UP"
         /\ In "Recent price decline" (concerns data)).
Proof.
  pose proof (findings_causes data) as (_ & _ & _ & Hpos & Hneg).
  rewrite Hpos, Hneg. unfold direction.
  split; [| split].
  - intros [_ H]. revert H.
    destruct (parseFloat (change_percent data)) as [| [|] | q]; compare_all;
      intros; try discriminate; try reflexivity; exfalso; lra.
  - intros Ht Hd. split; [assumption |]. revert Hd.
    destruct (parseFloat (change_percent data)) as [| [|] | q]; compare_all;
      intros; try discriminate; try reflexivity; exfalso; lra.
  - intros q Ht Hq Hz. split; [| apply Hneg; split; [assumption |]];
      rewrite Hq; compare_all; try reflexivity; exfalso; lra.
Qed.

(** ** Further properties of the pipeline *)

Lemma scraped_keys_in_order (w : World) :
  keys (scraped_sources w)
  = filter (succeeded w) (completion_order (completion w)).
Proof.
  unfold scraped_sources, resume, fetchYahooFinanceData, fetchNSEData,
    scrapeScreener, succeeded.
  destruct (completion w), (yahoo_response w), (nse_response w),
    (screener_response w); reflexivity.
Qed.

Lemma successes_in_any_order (w : World) :
  length (filter (succeeded w) (completion_order (completion w)))
  = length (filter (succeeded w) [yahoo_finance_key; nse_key; screener_key]).
Proof.
  unfold succeeded.
  destruct (completion w), (yahoo_response w), (nse_response w),
    (screener_response w); reflexivity.
Qed.

Lemma generateBasicSummary_reliability (sc : Scraper) (data : Combined) :
  exists front,
    generateBasicSummary sc data
    = front ++ "Data Reliability: "
      ++ (if (2 <=? sources_count sc)%nat then "Good" else "Fair")
      ++ " (" ++ Number_toString (num (Z.of_nat (sources_count sc)))
      ++ " Sources Verified)".
Proof.
  unfold generateBasicSummary.
  match goal with
  | |- exists front, String.concat nl [?a; ?b; ?c; ?d; ?e; ?f; ?g; ?h; ?i] = _ =>
      destruct (concat_ends_with_last nl [a; b; c; d; e; f; g; h] i) as [front Hf];
      exists front; exact Hf
  end.
Qed.

(** X6.  When the enrichment is unavailable, the final summary of the
    report ends with the data-reliability line, which counts the fetches
    that succeeded and says Good exactly when two or three of them did,
    however many properties they resolved. *)
Theorem fallback_reliability_counts_successes (w : World) (sym reason : string) :
  sym <> "" ->
  (exists k, succeeded w k = true) ->
  enrichment_unavailable w reason ->
  let n := length (filter (succeeded w) [yahoo_finance_key; nse_key; screener_key]) in
  exists r front,
    fst (analyze w (JSString sym)) = mkResponse 200 (ReportBody r)
    /\ Report.final_summary r
       = JSString (front ++ "Data Reliability: "
                   ++ (if (2 <=? n)%nat then "Good" else "Fair")
                   ++ " (" ++ Number_toString (num (Z.of_nat n))
                   ++ " Sources Verified)").
Proof.
  intros Hsym Hsome Hun n.
  rewrite analyze_report by assumption.
  rewrite (generateFinalSummary_fallback _ _ _ Hun).
  destruct (generateBasicSummary_reliability
              (with_sources (scraped_sources w) (new_scraper (now w) sym))
              (combine (with_sources (scraped_sources w) (new_scraper (now w) sym))))
    as [front Hf].
  eexists. exists front. split; [reflexivity |].
  cbn [Report.final_summary Final.summary]. rewrite Hf.
  replace (sources_count (with_sources (scraped_sources w) (new_scraper (now w) sym)))
    with n; [reflexivity |].
  unfold sources_count. cbn [with_sources data sources].
  now rewrite scraped_keys_in_order, successes_in_any_order.
Qed.

(** X7.  When an API key is configured and the enrichment call
    completes, the report carries the content of the completion as its
    final summary, whatever value that is, with the model name
    gpt-3.5-turbo and a null error, and the request to the completions
    endpoint follows the three fetches. *)
Theorem enrichment_success (w : World) (sym : string) (content : JSValue) :
  sym <> "" ->
  (exists k, succeeded w k = true) ->
  key_missing (OPENAI_API_KEY w) = false ->
  openai_response w = Completed content ->
  exists r,
    analyze w (JSString sym)
    = (mkResponse 200 (ReportBody r),
       (fetch_calls (toUpperCase sym) ++ [POST openai_url])%list)
    /\ Report.final_summary r = content
    /\ Report.ai_model r = JSString "gpt-3.5-turbo"
    /\ Report.ai_error r = null.
Proof.
  intros Hsym Hsome Hkey Hdone.
  rewrite analyze_report by assumption.
  unfold generateFinalSummary, getCombinedData. rewrite Hkey, Hdone.
  eexists. split; [reflexivity |]. repeat split.
Qed.

(** X8.  The network requests of a request with a non-empty symbol are
    the three fetches, for the upper-cased symbol and in the order
    Yahoo, NSE, Screener, followed by one request to the completions
    endpoint exactly when some fetch succeeded and an API key is
    configured. *)
Theorem network_calls (w : World) (sym : string) :
  sym <> "" ->
  snd (analyze w (JSString sym))
  = (fetch_calls (toUpperCase sym)
     ++ if existsb (succeeded w) [yahoo_finance_key; nse_key; screener_key]
           && negb (key_missing (OPENAI_API_KEY w))
        then [POST openai_url] else [])%list.
Proof.
  intros Hsym.
  destruct (existsb (succeeded w) [yahoo_finance_key; nse_key; screener_key]) eqn:E.
  - assert (Hsome : exists k, succeeded w k = true).
    { apply existsb_exists in E. destruct E as (k & _ & Hk). eauto. }
    rewrite analyze_report by assumption. cbn [snd andb].
    unfold generateFinalSummary, getCombinedData.
    destruct (key_missing (OPENAI_API_KEY w)); [reflexivity |].
    destruct (openai_response w); reflexivity.
  - assert (Hnone : forall k, succeeded w k = false).
    { cbn in E. apply orb_false_iff in E. destruct E as [Hy E].
      apply orb_false_iff in E. destruct E as [Hn E].
      apply orb_false_iff in E. destruct E as [Hs _].
      now intros []. }
    rewrite analyze_all_failed by assumption. cbn [snd andb].
    now rewrite app_nil_r.
Qed.

(** X9.  The sources of the report are listed in the order in which
    their fetches completed, the failed ones left out. *)
Theorem sources_follow_completion (w : World) (sym : string) :
  sym <> "" ->
  (exists k, succeeded w k = true) ->
  exists r,
    fst (analyze w (JSString sym)) = mkResponse 200 (ReportBody r)
    /\ Report.sources r
       = map sourceNames (filter (succeeded w) (completion_order (completion w))).
Proof.
  intros Hsym Hsome. rewrite analyze_report by assumption.
  eexists. split; [reflexivity |]. cbn [Report.sources].
  now rewrite scraped_keys_in_order.
Qed.

(** What the renderers read of a scraper: its symbol and the three slots
    of its sources. *)
Lemma combine_reads_slots (sc sc' : Scraper) :
  stockSymbol sc = stockSymbol sc' ->
  yahoo_finance (sources (data sc)) = yahoo_finance (sources (data sc')) ->
  nse (sources (data sc)) = nse (sources (data sc')) ->
  screener (sources (data sc)) = screener (sources (data sc')) ->
  combine sc = combine sc'.
Proof.
  intros Hs Hy Hn Hc. unfold combine. now rewrite Hs, Hy, Hn, Hc.
Qed.

Lemma generateSummary_text (sc : Scraper) :
  fst (generateSummary sc)
  = String.concat nl (summary_lines (stockSymbol sc) (combine sc)).
Proof. reflexivity. Qed.

Lemma prompt_text_reads_symbol (sc sc' : Scraper) (data : Combined) :
  stockSymbol sc = stockSymbol sc' -> prompt_text sc data = prompt_text sc' data.
Proof. intros H. unfold prompt_text. now rewrite H. Qed.

Lemma generateBasicSummary_reads (sc sc' : Scraper) (data : Combined) :
  stockSymbol sc = stockSymbol sc' ->
  sources_count sc = sources_count sc' ->
  generateBasicSummary sc data = generateBasicSummary sc' data.
Proof. intros H1 H2. unfold generateBasicSummary. now rewrite H1, H2. Qed.

Lemma generateFinalSummary_prompt (w : World) (sc : Scraper) :
  Final.prompt (fst (fst (generateFinalSummary w sc))) = prompt_text sc (combine sc).
Proof.
  unfold generateFinalSummary, getCombinedData.
  destruct (key_missing (OPENAI_API_KEY w)); [reflexivity |].
  destruct (openai_response w); reflexivity.
Qed.

(** A scraper that differs only in what the renderers do not read gets
    the same final summary and the same request. *)
Lemma generateFinalSummary_reads (w : World) (sc sc' : Scraper) :
  stockSymbol sc = stockSymbol sc' ->
  sources (data sc) = sources (data sc') ->
  fst (fst (generateFinalSummary w sc)) = fst (fst (generateFinalSummary w sc'))
  /\ snd (generateFinalSummary w sc) = snd (generateFinalSummary w sc').
Proof.
  intros Hs Hsrc.
  assert (Hc : combine sc = combine sc')
    by (apply combine_reads_slots; congruence).
  assert (Hp : prompt_text sc (combine sc) = prompt_text sc' (combine sc'))
    by (rewrite Hc; now apply prompt_text_reads_symbol).
  assert (Hb : generateBasicSummary sc (combine sc)
               = generateBasicSummary sc' (combine sc')).
  { rewrite Hc. apply generateBasicSummary_reads; [assumption |].
    unfold sources_count. now rewrite Hsrc. }
  unfold generateFinalSummary, getCombinedData.
  change (prompt_text (with_combined (combine sc) sc) (combine sc))
    with (prompt_text sc (combine sc)).
  change (prompt_text (with_combined (combine sc') sc') (combine sc'))
    with (prompt_text sc' (combine sc')).
  change (generateBasicSummary (with_combined (combine sc) sc) (combine sc))
    with (generateBasicSummary sc (combine sc)).
  change (generateBasicSummary (with_combined (combine sc') sc') (combine sc'))
    with (generateBasicSummary sc' (combine sc')).
  rewrite Hp, Hb.
  destruct (key_missing (OPENAI_API_KEY w)); [split; reflexivity |].
  destruct (openai_response w); split; reflexivity.
Qed.

(** X10.  Rendering twice changes nothing: [getCombinedData] and
    [generateSummary] return the same result and leave the same scraper
    when they run again, and [generateFinalSummary] returns the same
    object and issues the same request whether or not [generateSummary]
    ran before it. *)
Theorem rendering_is_idempotent (w : World) (sc : Scraper) :
  getCombinedData (snd (getCombinedData sc)) = getCombinedData sc
  /\ generateSummary (snd (generateSummary sc)) = generateSummary sc
  /\ fst (fst (generateFinalSummary w (snd (generateSummary sc))))
     = fst (fst (generateFinalSummary w sc))
  /\ snd (generateFinalSummary w (snd (generateSummary sc)))
     = snd (generateFinalSummary w sc).
Proof.
  split; [reflexivity |]. split; [reflexivity |].
  apply generateFinalSummary_reads; reflexivity.
Qed.

(** X11.  The summary, the merged record and the prompt of a report
    depend on what the three fetches returned and on nothing else: two
    requests for the same symbol whose fetches returned the same data get
    the same ones, whatever the order in which the fetches completed, the
    time of the request and the outcome of the enrichment. *)
Theorem deterministic_part_is_stable (w1 w2 : World) (sym : string) :
  sym <> "" ->
  (exists k, succeeded w1 k = true) ->
  yahoo_response w1 = yahoo_response w2 ->
  nse_response w1 = nse_response w2 ->
  screener_response w1 = screener_response w2 ->
  exists r1 r2,
    fst (analyze w1 (JSString sym)) = mkResponse 200 (ReportBody r1)
    /\ fst (analyze w2 (JSString sym)) = mkResponse 200 (ReportBody r2)
    /\ Report.summary r1 = Report.summary r2
    /\ Report.combined_data r1 = Report.combined_data r2
    /\ Report.ai_prompt r1 = Report.ai_prompt r2.
Proof.
  intros Hsym Hsome Hy Hn Hs.
  assert (Hsome2 : exists k, succeeded w2 k = true).
  { destruct Hsome as [k Hk]. exists k. revert Hk.
    unfold succeeded. now rewrite Hy, Hn, Hs. }
  rewrite !analyze_report by assumption.
  do 2 eexists. split; [reflexivity |]. split; [reflexivity |].
  cbn [Report.summary Report.combined_data Report.ai_prompt].
  pose proof (scraped_slots w1) as (Hy1 & Hn1 & Hs1 & _).
  pose proof (scraped_slots w2) as (Hy2 & Hn2 & Hs2 & _).
  assert (Hc : combine (with_sources (scraped_sources w1) (new_scraper (now w1) sym))
               = combine (with_sources (scraped_sources w2) (new_scraper (now w2) sym))).
  { apply combine_reads_slots; cbn [with_sources data sources stockSymbol new_scraper];
      congruence. }
  rewrite !generateSummary_text, !generateFinalSummary_prompt, Hc.
  repeat split.
Qed.

Lemma upper_ascii_idempotent (c : ascii) : upper_ascii (upper_ascii c) = upper_ascii c.
Proof. destruct c as [[] [] [] [] [] [] [] []]; reflexivity. Qed.

Lemma toUpperCase_idempotent (s : string) : toUpperCase (toUpperCase s) = toUpperCase s.
Proof.
  induction s as [| c s IH]; [reflexivity |].
  cbn [toUpperCase]. now rewrite upper_ascii_idempotent, IH.
Qed.

Lemma toUpperCase_not_empty (s : string) : s <> "" -> toUpperCase s <> "".
Proof. destruct s; [congruence | discriminate]. Qed.

(** X12.  The handler does not tell the cases of a symbol apart: a
    symbol and its upper-cased form get the same reply and issue the same
    requests. *)
Theorem analyze_ignores_case (w : World) (sym : string) :
  analyze w (JSString sym) = analyze w (JSString (toUpperCase sym)).
Proof.
  destruct sym as [| c s]; [reflexivity |].
  set (sym := String c s).
  assert (Hsym : sym <> "") by discriminate.
  assert (Hup : toUpperCase sym <> "") by now apply toUpperCase_not_empty.
  destruct (existsb (succeeded w) [yahoo_finance_key; nse_key; screener_key]) eqn:E.
  - assert (Hsome : exists k, succeeded w k = true).
    { apply existsb_exists in E. destruct E as (k & _ & Hk). eauto. }
    rewrite (analyze_report w sym Hsym Hsome).
    rewrite (analyze_report w (toUpperCase sym) Hup Hsome).
    rewrite toUpperCase_idempotent, !generateSummary_text.
    set (sc := with_sources (scraped_sources w) (new_scraper (now w) sym)).
    set (sc' := with_sources (scraped_sources w) (new_scraper (now w) (toUpperCase sym))).
    assert (Hs : stockSymbol sc = stockSymbol sc')
      by (symmetry; apply toUpperCase_idempotent).
    assert (Hsrc : sources (data sc) = sources (data sc')) by reflexivity.
    destruct (generateFinalSummary_reads w sc sc' Hs Hsrc) as [Hf Hcalls].
    rewrite Hf, Hcalls, Hs.
    now rewrite (combine_reads_slots sc sc' Hs).
  - assert (Hnone : forall k, succeeded w k = false).
    { cbn in E. apply orb_false_iff in E. destruct E as [Hy E].
      apply orb_false_iff in E. destruct E as [Hn E].
      apply orb_false_iff in E. destruct E as [Hs _].
      now intros []. }
    rewrite (analyze_all_failed w sym Hsym Hnone).
    rewrite (analyze_all_failed w (toUpperCase sym) Hup Hnone).
    now rewrite toUpperCase_idempotent.
Qed.

(** X13.  The report always names the company: the merged company name
    is truthy, and it is the upper-cased symbol when neither NSE nor
    Screener provides a truthy name. *)
Theorem company_name_is_never_missing (w : World) (sym : string) :
  sym <> "" ->
  (exists k, succeeded w k = true) ->
  exists r,
    fst (analyze w (JSString sym)) = mkResponse 200 (ReportBody r)
    /\ truthy (company_name (Report.combined_data r)) = true
    /\ (truthy (opt_get (nse_response w) NSE.company_name) = false ->
        truthy (opt_get (screener_response w)
                        (fun s => Screener.name (Screener.company_info s))) = false ->
        company_name (Report.combined_data r) = JSString (toUpperCase sym)).
Proof.
  intros Hsym Hsome. rewrite analyze_report by assumption.
  eexists. split; [reflexivity |]. cbn [Report.combined_data].
  pose proof (scraped_slots w) as (_ & Hn & Hs & _).
  unfold combine.
  cbn [company_name with_sources data sources stockSymbol new_scraper].
  rewrite Hn, Hs. unfold js_or.
  assert (Ht : truthy (JSString (toUpperCase sym)) = true).
  { destruct sym; [congruence | reflexivity]. }
  split.
  - destruct (truthy (opt_get (nse_response w) NSE.company_name)) eqn:E1;
      [now rewrite E1 |].
    destruct (truthy (opt_get (screener_response w)
                 (fun s => Screener.name (Screener.company_info s)))) eqn:E2;
      [now rewrite E2 | exact Ht].
  - intros E1 E2. now rewrite E1, E2.
Qed.

(** ** The extractors *)

(** X14.  Yahoo's change percent is the text [toFixed(2)] returns, so,
    that text never being empty, it is truthy whatever the payload held:
    whenever Yahoo answered, the merged change percent is Yahoo's, the
    one of NSE is not consulted, and the summary has a change line. *)
Theorem yahoo_change_percent_wins
        (StringToNumber : string -> number) (sc : Scraper) (meta : YahooMeta.t) :
  (forall n, toFixed2 n <> "") ->
  yahoo_finance (sources (data sc)) = Some (yahoo_data StringToNumber toFixed2 meta) ->
  let price := ToNumber StringToNumber (YahooMeta.regularMarketPrice meta) in
  let close := ToNumber StringToNumber (YahooMeta.previousClose meta) in
  let percent := toFixed2 (num_mul (num_div (num_sub price close) close) (num 100)) in
  change_percent (fst (getCombinedData sc)) = JSString percent
  /\ change_line (fst (getCombinedData sc))
     = Some ("📈 Today's Change: " ++ percent ++ "% " ++ direction (JSString percent)).
Proof.
  intros Hfixed Hy price close percent.
  assert (Hc : change_percent (fst (getCombinedData sc)) = JSString percent).
  { cbn [getCombinedData fst]. unfold combine. cbn [change_percent].
    rewrite Hy. cbn [opt_get yahoo_data Yahoo.change_percent].
    fold price close percent. unfold js_or. cbn [truthy].
    destruct percent eqn:E; [| reflexivity].
    exfalso. exact (Hfixed _ E). }
  split; [exact Hc |].
  unfold change_line. rewrite Hc. cbn [truthy ToString].
  destruct percent eqn:E; [| reflexivity].
  exfalso. exact (Hfixed _ E).
Qed.

(** X15.  When Yahoo answers without a previous close, the change it
    reports is not a number: with [toFixed] printing it as NaN, the
    summary shows a change of NaN% DOWN and the fallback summary lists a
    recent price decline, whatever NSE reports. *)
Theorem yahoo_without_close_renders_NaN
        (StringToNumber : string -> number) (sc : Scraper) (meta : YahooMeta.t) :
  toFixed2 NaN = "NaN" ->
  yahoo_finance (sources (data sc)) = Some (yahoo_data StringToNumber toFixed2 meta) ->
  YahooMeta.previousClose meta = undefined ->
  change_percent (fst (getCombinedData sc)) = JSString "NaN"
  /\ change_line (fst (getCombinedData sc)) = Some "📈 Today's Change: NaN% DOWN"
  /\ In "Recent price decline" (concerns (fst (getCombinedData sc))).
Proof.
  intros Hnan Hy Hclose.
  assert (Hc : change_percent (fst (getCombinedData sc)) = JSString "NaN").
  { cbn [getCombinedData fst]. unfold combine. cbn [change_percent].
    rewrite Hy. cbn [opt_get yahoo_data Yahoo.change_percent].
    rewrite Hclose. cbn [ToNumber].
    replace (num_sub (ToNumber StringToNumber (YahooMeta.regularMarketPrice meta)) NaN)
      with NaN by (now destruct (ToNumber _ _)).
    cbn [num_div num_mul]. rewrite Hnan. reflexivity. }
  split; [exact Hc |]. split.
  - unfold change_line. rewrite Hc. reflexivity.
  - apply (findings_causes (fst (getCombinedData sc))).
    rewrite Hc. split; reflexivity.
Qed.

(** X16.  A quote of NSE that lacks the price, metadata and info
    sections still counts as a success.  When it is the only answer, the
    request is served: the report lists NSE India as its one source and
    its summary has three lines, the upper-cased symbol as title, a price
    of N/A and the Medium risk. *)
Theorem empty_nse_quote_is_a_success (w : World) (sym : string) (quote : NSEQuote.t) :
  sym <> "" ->
  yahoo_response w = None ->
  screener_response w = None ->
  nse_response w = Some (nse_data quote) ->
  NSEQuote.priceInfo quote = None ->
  NSEQuote.metadata quote = None ->
  NSEQuote.info quote = None ->
  exists r,
    fst (analyze w (JSString sym)) = mkResponse 200 (ReportBody r)
    /\ Report.sources r = ["NSE India"]
    /\ Report.summary r
       = JSString (String.concat nl [ "📊 " ++ toUpperCase sym;
                                      "💰 Current Price: N/A";
                                      "⚠️ Risk Level: Medium Risk" ])
    /\ Report.combined_data r
       = mkCombined undefined undefined (JSString (toUpperCase sym))
                    undefined undefined undefined undefined.
Proof.
  intros Hsym Hy Hs Hn Hp Hm Hi.
  assert (Hsome : exists k, succeeded w k = true).
  { exists nse_key. cbn. now rewrite Hn. }
  rewrite analyze_report by assumption.
  eexists. split; [reflexivity |].
  cbn [Report.sources Report.summary Report.combined_data].
  pose proof (scraped_slots w) as (Hy' & Hn' & Hs' & _).
  assert (Hc : combine (with_sources (scraped_sources w) (new_scraper (now w) sym))
               = mkCombined undefined undefined (JSString (toUpperCase sym))
                            undefined undefined undefined undefined).
  { unfold combine. cbn [with_sources data sources stockSymbol new_scraper].
    rewrite Hy', Hn', Hs', Hy, Hn, Hs. unfold nse_data. rewrite Hp, Hm, Hi.
    reflexivity. }
  split; [| split; [| exact Hc]].
  - rewrite scraped_keys_in_order. unfold succeeded. rewrite Hy, Hn, Hs.
    now destruct (completion w).
  - rewrite generateSummary_text, Hc.
    cbn [with_sources stockSymbol new_scraper].
    unfold summary_lines, title_line, price_line, change_line, market_cap_line,
      pe_line, roe_line, book_value_line, risk_line, risk, js_or.
    cbn [company_name current_price change_percent market_cap pe_ratio roe
         book_value truthy number_guard opt_line app ToString].
    destruct sym; [congruence | reflexivity].
Qed.

Lemma assign_fold_none (probe : string -> option JSValue) (items : list string)
      (init : JSValue) :
  (forall u, In u items -> probe u = None) ->
  fold_left (fun old text => assign (probe text) old) items init = init.
Proof.
  revert init. induction items as [| t items IH]; intros init Hnone; [reflexivity |].
  cbn [fold_left]. rewrite (Hnone t (or_introl eq_refl)). cbn [assign].
  apply IH. intros u Hu. apply Hnone. now right.
Qed.

Lemma assign_fold_last (probe : string -> option JSValue)
      (before after : list string) (t : string) (v init : JSValue) :
  probe t = Some v ->
  (forall u, In u after -> probe u = None) ->
  fold_left (fun old text => assign (probe text) old) (before ++ t :: after) init = v.
Proof.
  intros Ht Hafter. rewrite fold_left_app. cbn [fold_left].
  rewrite Ht. cbn [assign]. now apply assign_fold_none.
Qed.

Lemma assign_fold_values (probe : string -> option JSValue) (items : list string)
      (init : JSValue) (P : JSValue -> Prop) :
  P init ->
  (forall u v, In u items -> probe u = Some v -> P v) ->
  P (fold_left (fun old text => assign (probe text) old) items init).
Proof.
  revert init. induction items as [| t items IH]; intros init Hinit Hall; [exact Hinit |].
  cbn [fold_left]. apply IH.
  - destruct (probe t) as [v |] eqn:E; cbn [assign]; [| exact Hinit].
    apply (Hall t v); [now left | exact E].
  - intros u v Hu. apply Hall. now right.
Qed.

(** The loop over the top ratios, property by property. *)
Lemma scan_top_ratios (items : list string) (d : Screener.t) (r : Ratio) :
  stored r (fold_left scan_top_ratio items d)
  = fold_left (fun old text => assign (probe_of r text) old) items (stored r d)
  /\ Screener.name (Screener.company_info (fold_left scan_top_ratio items d))
     = Screener.name (Screener.company_info d).
Proof.
  revert d. induction items as [| t items IH]; intros d; [split; reflexivity |].
  cbn [fold_left]. destruct (IH (scan_top_ratio d t)) as [Hs Hn].
  rewrite Hs, Hn. split; [| reflexivity]. now destruct r.
Qed.

(** The loop over the flex items touches the market cap alone. *)
Lemma scan_flex_items (items : list string) (d : Screener.t) (r : Ratio) :
  stored r (fold_left scan_flex_item items d)
  = match r with
    | r_market_cap =>
        fold_left (fun old text => assign (probe_market_cap text) old) items
                  (stored r d)
    | _ => stored r d
    end
  /\ Screener.name (Screener.company_info (fold_left scan_flex_item items d))
     = Screener.name (Screener.company_info d).
Proof.
  revert d. induction items as [| t items IH]; intros d.
  - split; [now destruct r | reflexivity].
  - cbn [fold_left]. destruct (IH (scan_flex_item d t)) as [Hs Hn].
    rewrite Hs, Hn. split; [| reflexivity]. now destruct r.
Qed.

Lemma screener_data_stored (page : Page) (r : Ratio) :
  stored r (screener_data page)
  = fold_left (fun old text => assign (probe_of r text) old) (items_of r page)
              undefined.
Proof.
  unfold screener_data.
  destruct (scan_flex_items (flex_items page)
              (fold_left scan_top_ratio (top_ratios page)
                 (Screener.mk
                    (Screener.mk_info
                       (if string_empty (h1 page) then undefined
                        else JSString (h1 page)) undefined)
                    (Screener.mk_ratios undefined undefined undefined undefined
                       undefined))) r) as [Hf _].
  rewrite Hf.
  match goal with
  | |- context [fold_left scan_top_ratio ?l ?d] =>
      destruct (scan_top_ratios l d r) as [Ht _]
  end.
  destruct r; rewrite Ht; cbn [items_of probe_of stored Screener.ratios
    Screener.company_info Screener.market_cap Screener.price Screener.pe_ratio
    Screener.book_value Screener.roe Screener.roce]; try reflexivity.
  now rewrite fold_left_app.
Qed.

(** X17.  In [scrapeScreener] the last item that matches decides: each
    of the six numbers is the value its probe finds in the last item
    that the probe matches (for the market cap the flex items come after
    the top ratios), and it stays [undefined] when the probe matches no
    item. *)
Theorem screener_last_match_wins (page : Page) (r : Ratio) :
  (forall before after t v,
      items_of r page = (before ++ t :: after)%list ->
      probe_of r t = Some v ->
      (forall u, In u after -> probe_of r u = None) ->
      stored r (screener_data page) = v)
  /\ ((forall u, In u (items_of r page) -> probe_of r u = None) ->
      stored r (screener_data page) = undefined).
Proof.
  rewrite screener_data_stored. split.
  - intros before after t v Hitems Ht Hafter. rewrite Hitems.
    now apply assign_fold_last.
  - apply assign_fold_none.
Qed.

Lemma probe_yields_number (r : Ratio) (text : string) (v : JSValue) :
  probe_of r text = Some v -> exists n, v = JSNumber n.
Proof.
  destruct r; cbn [probe_of];
    unfold probe_market_cap, probe_price, probe_pe_ratio, probe_book_value,
      probe_roe, probe_roce;
    match goal with |- context [includes ?a ?b] => destruct (includes a b) end;
    try discriminate;
    match goal with
    | |- option_map _ ?m = _ -> _ => destruct m; cbn [option_map]
    end;
    intros H; try discriminate; injection H as <-; eauto.
Qed.

(** X18.  Whatever the page holds, each of the six numbers of
    [scrapeScreener] is [undefined] or a number, and the company name is
    [undefined] or a non-empty string.  The guards of the renderers can
    therefore turn a Screener number away only for being zero or NaN. *)
Theorem screener_data_is_typed (page : Page) :
  (forall r, stored r (screener_data page) = undefined
             \/ exists n, stored r (screener_data page) = JSNumber n)
  /\ (Screener.name (Screener.company_info (screener_data page)) = undefined
      \/ exists s, s <> ""
                   /\ Screener.name (Screener.company_info (screener_data page))
                      = JSString s)
  /\ (forall r, typeof_number (stored r (screener_data page)) = false ->
                stored r (screener_data page) = undefined).
Proof.
  assert (Htyped : forall r, stored r (screener_data page) = undefined
                             \/ exists n, stored r (screener_data page) = JSNumber n).
  { intros r. rewrite screener_data_stored.
    apply assign_fold_values; [now left |].
    intros u v _ Hv. right. now apply (probe_yields_number r u). }
  split; [exact Htyped |]. split.
  - unfold screener_data.
    match goal with
    | |- context [fold_left scan_flex_item ?l ?d] =>
        destruct (scan_flex_items l d r_price) as [_ Hn]; rewrite Hn
    end.
    match goal with
    | |- context [fold_left scan_top_ratio ?l ?d] =>
        destruct (scan_top_ratios l d r_price) as [_ Hn']; rewrite Hn'
    end.
    cbn [Screener.name Screener.company_info].
    destruct (h1 page) as [| c s] eqn:E; cbn [string_empty]; [now left |].
    right. exists (String c s). split; [discriminate | reflexivity].
  - intros r Hr. destruct (Htyped r) as [H | [n H]]; [exact H |].
    rewrite H in Hr. discriminate.
Qed.

(** X19.  [scrapeMoneyControl] contributes a source but no data: after a
    successful call the merged record is what it was, while the list of
    sources ends with MoneyControl and counts one more, when it was not
    there before; after a failed call nothing has changed. *)
Theorem moneycontrol_adds_no_data (sc : Scraper) :
  let after ok := with_sources (snd (scrapeMoneyControl ok (sources (data sc)))) sc in
  combine (after true) = combine sc
  /\ (~ In moneycontrol_key (keys (sources (data sc))) ->
      getSourcesList (after true) = (getSourcesList sc ++ ["MoneyControl"])%list
      /\ sources_count (after true) = S (sources_count sc))
  /\ (In moneycontrol_key (keys (sources (data sc))) ->
      getSourcesList (after true) = getSourcesList sc)
  /\ sources (data (after false)) = sources (data sc).
Proof.
  intros after.
  assert (Hex : existsb (SourceKey_eqb moneycontrol_key) (keys (sources (data sc))) = true
                <-> In moneycontrol_key (keys (sources (data sc)))).
  { rewrite existsb_exists. split.
    - intros (k & Hk & E). now destruct k.
    - intros H. now exists moneycontrol_key. }
  split; [reflexivity |]. split; [| split; [| reflexivity]].
  - intros Hnot. unfold after, getSourcesList, sources_count.
    cbn [scrapeMoneyControl snd with_sources data sources set_moneycontrol keys].
    unfold add_key.
    destruct (existsb (SourceKey_eqb moneycontrol_key) (keys (sources (data sc)))) eqn:E.
    + exfalso. now apply Hnot, Hex.
    + rewrite map_app, length_app. cbn. split; [reflexivity | lia].
  - intros Hin. unfold after, getSourcesList.
    cbn [scrapeMoneyControl snd with_sources data sources set_moneycontrol keys].
    unfold add_key. apply Hex in Hin. now rewrite Hin.
Qed.

(** ** The replies of the handler *)

(** The stack trace is read only under the environment [development]. *)
Lemma details_outside_development (env : option string) (stack : string) :
  env <> Some "development" ->
  match env with
  | Some "development" => JSString stack
  | _ => undefined
  end = undefined.
Proof.
  intros H. destruct env as [s |]; [| reflexivity].
  do 11 (destruct s as [| [b0 b1 b2 b3 b4 b5 b6 b7] s]; [reflexivity |];
         destruct b0; try reflexivity; destruct b1; try reflexivity;
         destruct b2; try reflexivity; destruct b3; try reflexivity;
         destruct b4; try reflexivity; destruct b5; try reflexivity;
         destruct b6; try reflexivity; destruct b7; try reflexivity).
  destruct s; [congruence | reflexivity].
Qed.

(** X20.  Every reply is well formed, whatever the [symbol] property of
    the body holds.  A report comes with status 200 and [success] true;
    a failure comes with [success] false and an error text that is not
    empty, with status 400 exactly when the symbol is falsy and status
    500 otherwise; and the stack trace is passed on only when [NODE_ENV]
    is [development]. *)
Theorem replies_are_well_formed (w : World) (symbol : JSValue) :
  match body (fst (analyze w symbol)) with
  | ReportBody r =>
      status (fst (analyze w symbol)) = 200%nat
      /\ Report.success r = true
      /\ truthy symbol = true
  | FailureBody f =>
      Failure.success f = false
      /\ Failure.error f <> ""
      /\ status (fst (analyze w symbol))
         = (if truthy symbol then 500%nat else 400%nat)
      /\ (NODE_ENV w <> Some "development" -> Failure.details f = undefined)
      /\ (truthy symbol = false -> Failure.details f = undefined)
  end.
Proof.
  assert (Herr : forall e : Error,
             match body (server_error w e) with
             | ReportBody _ => False
             | FailureBody f =>
                 Failure.success f = false
                 /\ Failure.error f <> ""
                 /\ status (server_error w e) = 500%nat
                 /\ (NODE_ENV w <> Some "development" ->
                     Failure.details f = undefined)
             end).
  { intros e. unfold server_error. cbn [body status Failure.success Failure.error
      Failure.details]. repeat split.
    - destruct (message e) eqn:E; cbn [string_empty]; discriminate.
    - intros Henv. now apply details_outside_development. }
  destruct (truthy symbol) eqn:Ht.
  - destruct symbol as [| | b | n | sym | repr];
      try (unfold analyze; rewrite Ht; cbn [negb fst];
           specialize (Herr (mkError "stockSymbol.toUpperCase is not a function"));
           destruct (body (server_error w _)); [contradiction |];
           destruct Herr as (H1 & H2 & H3 & H4);
           repeat split; try assumption; discriminate).
    assert (Hsym : sym <> "") by (destruct sym; [discriminate | discriminate]).
    destruct (existsb (succeeded w) [yahoo_finance_key; nse_key; screener_key]) eqn:E.
    + assert (Hsome : exists k, succeeded w k = true).
      { apply existsb_exists in E. destruct E as (k & _ & Hk). eauto. }
      rewrite (analyze_report w sym Hsym Hsome). cbn [fst body status Report.success].
      repeat split.
    + assert (Hnone : forall k, succeeded w k = false).
      { cbn in E. apply orb_false_iff in E. destruct E as [Hy E].
        apply orb_false_iff in E. destruct E as [Hn E].
        apply orb_false_iff in E. destruct E as [Hs _].
        now intros []. }
      rewrite (analyze_all_failed w sym Hsym Hnone). cbn [fst].
      specialize (Herr (mkError all_failed_message)).
      destruct (body (server_error w _)); [contradiction |].
      destruct Herr as (H1 & H2 & H3 & H4).
      repeat split; try assumption; discriminate.
  - rewrite (analyze_falsy w symbol Ht). cbn. repeat split; discriminate.
Qed.


End Render.

(** * Closed examples *)

(** C1, a counterexample to the claim as stated.  Yahoo ranks above NSE
    for the price and both provide one, but Yahoo's is the number zero:
    the merged price is NSE's 3512.4, not Yahoo's. *)
Lemma zero_price_is_passed_over :
  let sc := Examples.holding Examples.zero_priced in
  let s := sources (data sc) in
  ranks_above f_current_price yahoo_finance_key nse_key
  /\ provided s yahoo_finance_key f_current_price = JSNumber (num 0)
  /\ provided s nse_key f_current_price = JSNumber (Finite (35124 # 10))
  /\ absent (provided s yahoo_finance_key f_current_price) = false
  /\ absent (provided s nse_key f_current_price) = false
  /\ field (fst (getCombinedData sc)) f_current_price
     = provided s nse_key f_current_price
  /\ field (fst (getCombinedData sc)) f_current_price
     <> provided s yahoo_finance_key f_current_price.
Proof.
  cbn. repeat split; try reflexivity; try lia. discriminate.
Qed.

(** C1: NSE and Screener both report a price and Yahoo failed; the merged
    price is NSE's. *)
Lemma getCombinedData_priority_witness :
  field (fst (getCombinedData (Examples.holding Examples.nse_and_screener)))
        f_current_price
  = JSNumber (Finite (35124 # 10)).
Proof.
  apply (getCombinedData_priority (Examples.holding Examples.nse_and_screener)
           f_current_price nse_key screener_key).
  - cbn. lia.
  - reflexivity.
  - intros H HH. destruct H; cbn in HH; try lia; reflexivity.
Defined.

(** C8, a counterexample to the claim as stated.  Only Yahoo answered, so
    no source provides a company name; the merged record nevertheless
    holds one, the stock symbol. *)
Lemma company_name_defaults_to_symbol :
  let sc := Examples.holding Examples.yahoo_only in
  let s := sources (data sc) in
  provided s nse_key f_company_name = undefined
  /\ provided s screener_key f_company_name = undefined
  /\ field (fst (getCombinedData sc)) f_company_name = JSString "TCS"
  /\ absent (field (fst (getCombinedData sc)) f_company_name) = false.
Proof. cbn. repeat split. Qed.

(** C8: only Yahoo answered, and the merged market cap is [undefined]. *)
Lemma unresolved_field_stays_absent_witness :
  field (fst (getCombinedData (Examples.holding Examples.yahoo_only))) f_market_cap
  = undefined.
Proof.
  apply (unresolved_field_stays_absent (Examples.holding Examples.yahoo_only)
           f_market_cap).
  - intros k [<- | []]. reflexivity.
  - discriminate.
  - intros k [<- | []]. reflexivity.
Defined.

(** C3, a counterexample to the claim as stated.  NSE reports a P/E of
    zero, which the merged record holds; zero is below 15, yet the summary
    has no P/E line and so no Cheap tier, and the fallback summary says
    Fair. *)
Lemma zero_pe_is_not_cheap :
  let sc := Examples.holding Examples.nse_zero_pe in
  let merged := fst (getCombinedData sc) in
  pe_ratio merged = JSNumber (num 0)
  /\ absent (pe_ratio merged) = false
  /\ num_lt (num 0) (num 15) = true
  /\ pe_line Sample.toFixed2 merged = None
  /\ summary_lines Sample.Number_toString Sample.toFixed2 Sample.toLocaleString_enIN
       (stockSymbol sc) merged
     = [ "📊 Tata Consultancy Services Limited";
         "💰 Current Price: ₹3512.40";
         "⚠️ Risk Level: Medium Risk" ]
  /\ basic_valuation merged = "Fair".
Proof. vm_compute. repeat split. Qed.

(** C3: Screener reports a P/E of 28, and the P/E line says Fair. *)
Lemma valuation_tiers_witness :
  pe_line Sample.toFixed2
          (fst (getCombinedData (Examples.holding Examples.nse_and_screener)))
  = Some "📊 P/E Ratio: 28.00 (Fair)".
Proof.
  destruct (valuation_tiers Sample.toFixed2
              (fst (getCombinedData (Examples.holding Examples.nse_and_screener))))
    as [H _].
  destruct (H 28%Q eq_refl) as [Hline _].
  - intros E. discriminate E.
  - exact Hline.
Defined.

(** C4, a counterexample to the claim as stated.  Screener reports a P/E
    of 60 and an ROE of zero; both are provided and the ratio is above
    50, yet the risk tier is Medium, not High. *)
Lemma dear_stock_without_return_is_medium :
  let sc := Examples.holding Examples.dear_without_return in
  let merged := fst (getCombinedData sc) in
  pe_ratio merged = JSNumber (num 60)
  /\ roe merged = JSNumber (num 0)
  /\ absent (pe_ratio merged) = false
  /\ absent (roe merged) = false
  /\ num_gt (num 60) (num 50) = true
  /\ risk merged = "Medium Risk"
  /\ risk merged <> "High Risk".
Proof. vm_compute. repeat split. discriminate. Qed.

(** C4: a P/E of 10 with an ROE of 20 is Low, through the general rule. *)
Lemma risk_tiers_witness :
  risk (Examples.pe_and_roe 10 20) = "Low Risk".
Proof.
  destruct (risk_tiers (Examples.pe_and_roe 10 20)) as [H _].
  destruct (H 10%Q 20%Q eq_refl eq_refl) as [Hlow _].
  - intros E. discriminate E.
  - intros E. discriminate E.
  - apply Hlow. split; reflexivity.
Defined.

(** C6, a counterexample to the claim as stated.  Screener reports an
    ROE of zero, which the merged record holds, so the field is resolved;
    the summary has no ROE line all the same. *)
Lemma zero_roe_has_no_line :
  let sc := Examples.holding Examples.fair_without_return in
  let merged := fst (getCombinedData sc) in
  provided (sources (data sc)) screener_key f_roe = JSNumber (num 0)
  /\ roe merged = JSNumber (num 0)
  /\ absent (roe merged) = false
  /\ roe_line Sample.toFixed2 merged = None
  /\ fst (generateSummary Sample.Number_toString Sample.toFixed2
            Sample.toLocaleString_enIN sc)
     = String.concat nl
         [ "📊 Tata Consultancy Services Ltd";
           "💰 Current Price: ₹3510.00";
           "🏢 Market Cap: ₹12,70,000 Cr";
           "📊 P/E Ratio: 28.00 (Fair)";
           "📖 Book Value: ₹280.00";
           "⚠️ Risk Level: Medium Risk" ].
Proof. vm_compute. repeat split. Qed.

(** C6: with NSE and Screener answering, the stored summary ends with
    the risk line and its second line is the price line. *)
Lemma summary_shape_witness :
  let sc := Examples.holding Examples.nse_and_screener in
  let lines := summary_lines Sample.Number_toString Sample.toFixed2
                 Sample.toLocaleString_enIN (stockSymbol sc)
                 (fst (getCombinedData sc)) in
  nth_error lines 1 = Some "💰 Current Price: ₹3512.40"
  /\ last lines "" = "⚠️ Risk Level: Medium Risk".
Proof.
  pose proof (summary_shape Sample.Number_toString Sample.toFixed2
                Sample.toLocaleString_enIN
                (Examples.holding Examples.nse_and_screener))
    as (_ & _ & _ & Hprice & _ & _ & _ & _ & Hlast & _).
  split; [exact Hprice | exact Hlast].
Defined.

(** C10: Yahoo's price of zero is passed over for NSE's, through the
    general rule. *)
Lemma zero_is_treated_as_absent_witness :
  field (fst (getCombinedData (Examples.holding Examples.zero_priced)))
        f_current_price
  = JSNumber (Finite (35124 # 10)).
Proof.
  destruct (zero_is_treated_as_absent Sample.Number_toString Sample.toFixed2
              Sample.toLocaleString_enIN) as [H _].
  apply (H (Examples.holding Examples.zero_priced) f_current_price
           [] [screener_key] yahoo_finance_key nse_key).
  - reflexivity.
  - intros k [].
  - reflexivity.
  - reflexivity.
Defined.

(** C2: with every source down the reply is the fatal one; with two of
    three up it is a report. *)
Lemma all_sources_failed_is_fatal_witness :
  (exists f,
      fst (analyze Sample.Number_toString Sample.toFixed2 Sample.toLocaleString_enIN
             Examples.all_down (JSString "tcs"))
      = mkResponse 500 (FailureBody f)
      /\ Failure.success f = false
      /\ Failure.error f = all_failed_message)
  /\ (exists r,
         fst (analyze Sample.Number_toString Sample.toFixed2
                Sample.toLocaleString_enIN Examples.two_of_three (JSString "tcs"))
         = mkResponse 200 (ReportBody r)
         /\ Report.success r = true
         /\ yahoo_finance (Report.raw_data r) = Some Examples.yahoo_quote
         /\ nse (Report.raw_data r) = None
         /\ screener (Report.raw_data r)
            = Some (Examples.screener_page (Examples.qnum 28) (Examples.qnum 45))).
Proof.
  split.
  - apply (all_sources_failed_is_fatal Sample.Number_toString Sample.toFixed2
             Sample.toLocaleString_enIN Examples.all_down "tcs").
    + discriminate.
    + intros []; reflexivity.
  - apply (all_sources_failed_is_fatal Sample.Number_toString Sample.toFixed2
             Sample.toLocaleString_enIN Examples.two_of_three "tcs").
    + discriminate.
    + exists yahoo_finance_key. reflexivity.
Defined.

(** C5, a counterexample to the claim as stated.  A key is configured
    and the enrichment call fails with an error whose message is empty:
    the report is served with the fallback summary, but its [ai_error] is
    [null], as for a call that succeeded, so the failure is not
    reported. *)
Lemma silent_enrichment_failure_is_swallowed :
  let w := Examples.enrichment_fails_silently in
  let reply := fst (analyze Sample.Number_toString Sample.toFixed2
                      Sample.toLocaleString_enIN w (JSString "tcs")) in
  key_missing (OPENAI_API_KEY w) = false
  /\ openai_response w = Failed ""
  /\ status reply = 200%nat
  /\ (exists r,
         body reply = ReportBody r
         /\ Report.success r = true
         /\ Report.final_summary r
            = JSString (generateBasicSummary Sample.Number_toString Sample.toFixed2
                          (with_sources (Report.raw_data r)
                                        (new_scraper (now w) "tcs"))
                          (Report.combined_data r))
         /\ Report.ai_model r = JSString "basic"
         /\ Report.ai_error r = null).
Proof.
  cbv zeta. repeat split. eexists. split; [reflexivity |].
  repeat split.
Qed.

(** C5: the enrichment call times out, and the report carries the
    fallback summary and the message. *)
Lemma enrichment_failure_is_not_fatal_witness :
  exists r sc,
    fst (analyze Sample.Number_toString Sample.toFixed2 Sample.toLocaleString_enIN
           Examples.enrichment_times_out (JSString "tcs"))
    = mkResponse 200 (ReportBody r)
    /\ Report.success r = true
    /\ stockSymbol sc = "TCS"
    /\ sources (data sc) = Report.raw_data r
    /\ Report.final_summary r
       = JSString (generateBasicSummary Sample.Number_toString Sample.toFixed2
                     sc (Report.combined_data r))
    /\ Report.combined_data r = fst (getCombinedData sc)
    /\ Report.ai_error r = JSString "timeout of 15000ms exceeded"
    /\ ("timeout of 15000ms exceeded" <> "" ->
        Report.ai_error r = JSString "timeout of 15000ms exceeded")
    /\ (key_missing (OPENAI_API_KEY Examples.enrichment_times_out) = true ->
        Report.ai_error r = JSString "OpenAI API key not configured")
    /\ Report.ai_model r = JSString "basic".
Proof.
  apply (enrichment_failure_is_not_fatal Sample.Number_toString Sample.toFixed2
           Sample.toLocaleString_enIN Examples.enrichment_times_out "tcs"
           "timeout of 15000ms exceeded").
  - discriminate.
  - exists yahoo_finance_key. reflexivity.
  - right. split; reflexivity.
Defined.



(** C9: Yahoo and Screener answered and NSE did not; the report lists
    those two names and no other. *)
Lemma sources_list_names_the_successes_witness :
  exists r,
    fst (analyze Sample.Number_toString Sample.toFixed2 Sample.toLocaleString_enIN
           Examples.two_of_three (JSString "tcs"))
    = mkResponse 200 (ReportBody r)
    /\ (forall k, In (sourceNames k) (Report.sources r)
                  <-> succeeded Examples.two_of_three k = true)
    /\ NoDup (Report.sources r)
    /\ (forall name, In name (Report.sources r) ->
                     exists k, name = sourceNames k
                               /\ succeeded Examples.two_of_three k = true).
Proof.
  apply (sources_list_names_the_successes Sample.Number_toString Sample.toFixed2
           Sample.toLocaleString_enIN Examples.two_of_three "tcs").
  - discriminate.
  - exists yahoo_finance_key. reflexivity.
Defined.

(** * Closed examples of the further properties *)

Lemma append_not_empty (a b : string) : b <> "" -> a ++ b <> "".
Proof. destruct a; [trivial | discriminate]. Qed.

(** The sample [toFixed] never prints the empty text. *)
Lemma sample_toFixed2_not_empty (n : number) : Sample.toFixed2 n <> "".
Proof.
  destruct n as [| [|] | q]; try discriminate.
  unfold Sample.toFixed2, Sample.special.
  apply append_not_empty, append_not_empty. discriminate.
Qed.

(** X3: a P/E of 28 is Fair in the fallback summary as in the P/E line. *)
Lemma fallback_valuation_agrees_witness :
  basic_valuation (Examples.pe_and_roe 28 45) = "Fair".
Proof.
  destruct (fallback_valuation_agrees (Examples.pe_and_roe 28 45) (Finite 28) eq_refl)
    as (_ & Hfair & _).
  apply Hfair. reflexivity.
Defined.

(** X6: Yahoo and Screener answered and no key is configured; the final
    summary ends with a reliability of Good for two sources. *)
Lemma fallback_reliability_counts_successes_witness :
  exists r front,
    fst (analyze Sample.Number_toString Sample.toFixed2 Sample.toLocaleString_enIN
           Examples.two_of_three (JSString "tcs"))
    = mkResponse 200 (ReportBody r)
    /\ Report.final_summary r
       = JSString (front ++ "Data Reliability: Good (2 Sources Verified)").
Proof.
  apply (fallback_reliability_counts_successes Sample.Number_toString Sample.toFixed2
           Sample.toLocaleString_enIN Examples.two_of_three "tcs"
           "OpenAI API key not configured").
  - discriminate.
  - exists yahoo_finance_key. reflexivity.
  - left. split; reflexivity.
Defined.

(** X7: the enrichment call completes and its content is the final
    summary. *)
Lemma enrichment_success_witness :
  exists r,
    analyze Sample.Number_toString Sample.toFixed2 Sample.toLocaleString_enIN
            Cases.enriched (JSString "tcs")
    = (mkResponse 200 (ReportBody r),
       (fetch_calls "TCS" ++ [POST openai_url])%list)
    /\ Report.final_summary r = JSString "Stock: Tata Consultancy Services Ltd (TCS)"
    /\ Report.ai_model r = JSString "gpt-3.5-turbo"
    /\ Report.ai_error r = null.
Proof.
  apply (enrichment_success Sample.Number_toString Sample.toFixed2
           Sample.toLocaleString_enIN Cases.enriched "tcs"
           (JSString "Stock: Tata Consultancy Services Ltd (TCS)")).
  - discriminate.
  - exists yahoo_finance_key. reflexivity.
  - reflexivity.
  - reflexivity.
Defined.

(** X8: with every source down there are the three fetches and no
    request to the completions endpoint. *)
Lemma network_calls_witness :
  snd (analyze Sample.Number_toString Sample.toFixed2 Sample.toLocaleString_enIN
         Examples.all_down (JSString "tcs"))
  = [ GET "https://query1.finance.yahoo.com/v8/finance/chart/TCS.NS";
      GET "https://www.nseindia.com/api/quote-equity?symbol=TCS";
      GET "https://www.screener.in/company/TCS/consolidated/" ].
Proof.
  apply (network_calls Sample.Number_toString Sample.toFixed2
           Sample.toLocaleString_enIN Examples.all_down "tcs").
  discriminate.
Defined.

(** X9: Screener completed before Yahoo, and is listed before it. *)
Lemma sources_follow_completion_witness :
  exists r,
    fst (analyze Sample.Number_toString Sample.toFixed2 Sample.toLocaleString_enIN
           Examples.two_of_three (JSString "tcs"))
    = mkResponse 200 (ReportBody r)
    /\ Report.sources r = ["Screener.in"; "Yahoo Finance"].
Proof.
  apply (sources_follow_completion Sample.Number_toString Sample.toFixed2
           Sample.toLocaleString_enIN Examples.two_of_three "tcs").
  - discriminate.
  - exists yahoo_finance_key. reflexivity.
Defined.

(** X11: the same data with and without a working enrichment, fetched
    in different orders, give the same summary, record and prompt. *)
Lemma deterministic_part_is_stable_witness :
  exists r1 r2,
    fst (analyze Sample.Number_toString Sample.toFixed2 Sample.toLocaleString_enIN
           Examples.two_of_three (JSString "tcs"))
    = mkResponse 200 (ReportBody r1)
    /\ fst (analyze Sample.Number_toString Sample.toFixed2
              Sample.toLocaleString_enIN Cases.enriched (JSString "tcs"))
       = mkResponse 200 (ReportBody r2)
    /\ Report.summary r1 = Report.summary r2
    /\ Report.combined_data r1 = Report.combined_data r2
    /\ Report.ai_prompt r1 = Report.ai_prompt r2.
Proof.
  apply (deterministic_part_is_stable Sample.Number_toString Sample.toFixed2
           Sample.toLocaleString_enIN Examples.two_of_three Cases.enriched "tcs").
  - discriminate.
  - exists yahoo_finance_key. reflexivity.
  - reflexivity.
  - reflexivity.
  - reflexivity.
Defined.

(** X13: only the empty quote of NSE came in, and the company is named
    by the symbol. *)
Lemma company_name_is_never_missing_witness :
  exists r,
    fst (analyze Sample.Number_toString Sample.toFixed2 Sample.toLocaleString_enIN
           Cases.only_empty_nse (JSString "tcs"))
    = mkResponse 200 (ReportBody r)
    /\ truthy (company_name (Report.combined_data r)) = true
    /\ company_name (Report.combined_data r) = JSString "TCS".
Proof.
  destruct (company_name_is_never_missing Sample.Number_toString Sample.toFixed2
              Sample.toLocaleString_enIN Cases.only_empty_nse "tcs")
    as (r & Hr & Ht & Hname).
  - discriminate.
  - exists nse_key. reflexivity.
  - exists r. split; [exact Hr |]. split; [exact Ht |].
    apply Hname; reflexivity.
Defined.

(** X14: Yahoo reports a rise of 0.59 percent and NSE a fall of 1.2; the
    merged change is Yahoo's. *)
Lemma yahoo_change_percent_wins_witness :
  let sc := Examples.holding (Cases.yahoo_and_nse Cases.meta_quote) in
  change_percent (fst (getCombinedData sc)) = JSString "0.59"
  /\ change_line Sample.Number_toString (fst (getCombinedData sc))
     = Some "📈 Today's Change: 0.59% UP".
Proof.
  apply (yahoo_change_percent_wins Sample.Number_toString Sample.toFixed2
           Cases.StringToNumber
           (Examples.holding (Cases.yahoo_and_nse Cases.meta_quote))
           Cases.meta_quote).
  - exact sample_toFixed2_not_empty.
  - reflexivity.
Defined.

(** X15: the chart has no previous close; the change line says NaN% DOWN
    although NSE reports a change. *)
Lemma yahoo_without_close_renders_NaN_witness :
  let sc := Examples.holding (Cases.yahoo_and_nse Cases.meta_without_close) in
  change_percent (fst (getCombinedData sc)) = JSString "NaN"
  /\ change_line Sample.Number_toString (fst (getCombinedData sc))
     = Some "📈 Today's Change: NaN% DOWN"
  /\ In "Recent price decline" (concerns Sample.Number_toString (fst (getCombinedData sc))).
Proof.
  apply (yahoo_without_close_renders_NaN Sample.Number_toString Sample.toFixed2
           Cases.StringToNumber
           (Examples.holding (Cases.yahoo_and_nse Cases.meta_without_close))
           Cases.meta_without_close).
  - reflexivity.
  - reflexivity.
  - reflexivity.
Defined.

(** X16: the empty quote of NSE alone is served as a report. *)
Lemma empty_nse_quote_is_a_success_witness :
  exists r,
    fst (analyze Sample.Number_toString Sample.toFixed2 Sample.toLocaleString_enIN
           Cases.only_empty_nse (JSString "tcs"))
    = mkResponse 200 (ReportBody r)
    /\ Report.sources r = ["NSE India"]
    /\ Report.summary r
       = JSString (String.concat nl [ "📊 TCS";
                                      "💰 Current Price: N/A";
                                      "⚠️ Risk Level: Medium Risk" ])
    /\ Report.combined_data r
       = mkCombined undefined undefined (JSString "TCS")
                    undefined undefined undefined undefined.
Proof.
  apply (empty_nse_quote_is_a_success Sample.Number_toString Sample.toFixed2
           Sample.toLocaleString_enIN Cases.only_empty_nse "tcs" Cases.empty_quote);
    try reflexivity.
  discriminate.
Defined.

(** X17: of the two items with a P/E the later one is stored, and the
    market cap of the flex items replaces the one of the top ratios. *)
Lemma screener_last_match_wins_witness :
  Screener.pe_ratio (Screener.ratios (screener_data Cases.tcs_page))
  = JSNumber (Finite 28.5)
  /\ Screener.market_cap (Screener.ratios (screener_data Cases.tcs_page))
     = JSNumber (Finite 1300000).
Proof.
  split.
  - apply (proj1 (screener_last_match_wins Cases.tcs_page r_pe_ratio)
             [ "Market Cap ₹ 12,70,000 Cr."; "Current Price ₹ 3,510";
               "Stock P/E 31.2"; "Book Value ₹ 280" ]
             [ "ROCE 64.3%"; "ROE 52.4%" ]
             "Stock P/E 28.5").
    + reflexivity.
    + reflexivity.
    + intros u [<- | [<- | []]]; reflexivity.
  - apply (proj1 (screener_last_match_wins Cases.tcs_page r_market_cap)
             (top_ratios Cases.tcs_page) [] "Market Cap ₹ 13,00,000 Cr.").
    + reflexivity.
    + reflexivity.
    + intros u [].
Defined.

